(** * Equipment parameter model (backend/api/ml_models.py)

    A shallow embedding of [EquipmentMLModel]: data cleaning, the
    regression and classification training pipelines, prediction and
    persistence.

    Modelling conventions.
    - Floats are modelled as exact rationals [Q]; a missing cell (NaN in
      the DataFrame) is [None].
    - The estimators of the ML library (scalers, regressors, classifier)
      are black boxes: they are parameters of the sections below.  The
      library routines whose behaviour the pipeline depends on
      ([scipy.stats.zscore], [train_test_split]'s size validation,
      [LabelEncoder], [r2_score]) are written out.
    - The Python object [self] is the state of a small state/exception
      monad; it additionally records, as a trace, every estimator fit. *)

From Stdlib Require Import QArith Qround Qabs Lqa.
From stdpp Require Import base list gmap strings pretty.

(* ------------------------------------------------------------------ *)
(** ** Rows and numeric columns *)

(** One DataFrame row; only the columns the model reads. *)
Record row := mk_row {
  Name : string;
  Type_ : string;
  Flowrate : option Q;
  Pressure : option Q;
  Temperature : option Q
}.

(** [numeric_cols = ['Flowrate', 'Pressure', 'Temperature']] *)
Inductive numeric_col := Flowrate_c | Pressure_c | Temperature_c.

Definition numeric_cols : list numeric_col := [Flowrate_c; Pressure_c; Temperature_c].

Definition get_col (c : numeric_col) (r : row) : option Q :=
  match c with
  | Flowrate_c => Flowrate r
  | Pressure_c => Pressure r
  | Temperature_c => Temperature r
  end.

Definition set_col (c : numeric_col) (v : option Q) (r : row) : row :=
  match c with
  | Flowrate_c => mk_row (Name r) (Type_ r) v (Pressure r) (Temperature r)
  | Pressure_c => mk_row (Name r) (Type_ r) (Flowrate r) v (Temperature r)
  | Temperature_c => mk_row (Name r) (Type_ r) (Flowrate r) (Pressure r) v
  end.

(* ------------------------------------------------------------------ *)
(** ** Rational helpers *)

Definition Qltb (x y : Q) : bool := negb (Qle_bool y x).

Fixpoint sumQ (l : list Q) : Q :=
  match l with [] => 0%Q | x :: l' => (x + sumQ l')%Q end.

Definition Q_of_nat (n : nat) : Q := inject_Z (Z.of_nat n).

Fixpoint insert_sorted (x : Q) (l : list Q) : list Q :=
  match l with
  | [] => [x]
  | y :: l' => if Qle_bool x y then x :: l else y :: insert_sorted x l'
  end.

Definition sort_Q (l : list Q) : list Q := fold_right insert_sorted [] l.

Fixpoint minQ (x : Q) (l : list Q) : Q :=
  match l with
  | [] => x
  | y :: l' => minQ (if Qle_bool y x then y else x) l'
  end.

(** The present (non-NaN) values of a column. *)
Fixpoint present (col : list (option Q)) : list Q :=
  match col with
  | [] => []
  | Some x :: col' => x :: present col'
  | None :: col' => present col'
  end.

(** [Some xs] when no cell of the column is missing. *)
Fixpoint all_present (col : list (option Q)) : option (list Q) :=
  match col with
  | [] => Some []
  | Some x :: col' => match all_present col' with Some xs => Some (x :: xs) | None => None end
  | None :: _ => None
  end.

(* ------------------------------------------------------------------ *)
(** ** pandas: [Series.median] and [fillna] *)

(** [Series.median()] skips NaN; the median of no value is NaN. *)
Definition median (col : list (option Q)) : option Q :=
  let vals := sort_Q (present col) in
  let n := length vals in
  match n with
  | O => None
  | S _ =>
      if Nat.even n
      then Some ((nth (Nat.div n 2 - 1) vals 0%Q + nth (Nat.div n 2) vals 0%Q) / 2)%Q
      else Some (nth (Nat.div n 2) vals 0%Q)
  end.

(** [if df_clean[col].isnull().any():
        df_clean[col].fillna(df_clean[col].median(), inplace=True)] *)
Definition fill_col (c : numeric_col) (df : list row) : list row :=
  let col := map (get_col c) df in
  if existsb (fun o => match o with None => true | Some _ => false end) col
  then
    let med := median col in
    map (fun r => match get_col c r with None => set_col c med r | Some _ => r end) df
  else df.

Definition fill_missing (df : list row) : list row :=
  fold_left (fun d c => fill_col c d) numeric_cols df.

(* ------------------------------------------------------------------ *)
(** ** scipy: [stats.zscore] (population std, [nan_policy='propagate']) *)

(** A z-score [dev / sqrt var], or NaN.  *)
Inductive zval := ZNaN | ZVal (dev var : Q).

(** [zscore] of one column: a NaN anywhere makes the mean NaN and every
    score NaN; a constant column ([a == a.min()] everywhere) gets NaN
    scores; otherwise [(x - mean) / std] with [std**2 = mean((x-mean)**2)]. *)
Definition zscore (col : list (option Q)) : list zval :=
  match all_present col with
  | None => map (fun _ => ZNaN) col
  | Some xs =>
      match xs with
      | [] => []
      | x0 :: xs' =>
          let n := Q_of_nat (length xs) in
          let mn := (sumQ xs / n)%Q in
          let var := (sumQ (map (fun x => (x - mn) * (x - mn)) xs) / n)%Q in
          let a0 := minQ x0 xs' in
          if forallb (fun x => Qeq_bool x a0) xs
          then map (fun _ => ZNaN) xs
          else map (fun x => ZVal (x - mn) var) xs
      end
  end.

(** [np.abs(z) < 3]: NaN compares false; for a defined score
    ([var > 0]) [|dev / sqrt var| < 3] iff [dev * dev < 9 * var]. *)
Definition abs_lt3 (z : zval) : bool :=
  match z with
  | ZNaN => false
  | ZVal d v => Qltb (d * d) (9 * v)
  end.

(** [np.abs(z) > 3] (the spec's "exceeds 3"): NaN compares false. *)
Definition abs_gt3 (z : zval) : bool :=
  match z with
  | ZNaN => false
  | ZVal d v => Qltb (9 * v) (d * d)
  end.

Fixpoint zip3_and (a b c : list bool) : list bool :=
  match a, b, c with
  | x :: a', y :: b', z :: c' => (x && y && z) :: zip3_and a' b' c'
  | _, _, _ => []
  end.

(** [df[mask]] for a boolean mask. *)
Fixpoint mask_select {A} (mask : list bool) (l : list A) : list A :=
  match mask, l with
  | b :: mask', x :: l' => if b then x :: mask_select mask' l' else mask_select mask' l'
  | _, _ => []
  end.

Definition zcol (c : numeric_col) (df : list row) : list zval :=
  zscore (map (get_col c) df).

(** [(z_scores < 3).all(axis=1)] *)
Definition z_mask (df : list row) : list bool :=
  zip3_and (map abs_lt3 (zcol Flowrate_c df))
           (map abs_lt3 (zcol Pressure_c df))
           (map abs_lt3 (zcol Temperature_c df)).

(** [EquipmentMLModel.clean_data] *)
Definition clean_data (df : list row) : list row :=
  let df_clean := fill_missing df in
  mask_select (z_mask df_clean) df_clean.

(* ------------------------------------------------------------------ *)
(** ** Python floats that may be NaN or [-np.inf] *)

Inductive pyfloat := PFin (q : Q) | PNaN | PNegInf.

(** [a > b] on floats; every comparison with NaN is false. *)
Definition py_gt (a b : pyfloat) : bool :=
  match a, b with
  | PFin x, PFin y => Qltb y x
  | PFin _, PNegInf => true
  | _, _ => false
  end.

(* ------------------------------------------------------------------ *)
(** ** sklearn: [LabelEncoder] (string labels) *)

(** Insertion into a sorted duplicate-free list ([np.unique]). *)
Fixpoint insert_uniq (s : string) (l : list string) : list string :=
  match l with
  | [] => [s]
  | t :: l' =>
      if String.eqb s t then l
      else if String.ltb s t then s :: l else t :: insert_uniq s l'
  end.

Definition unique_sorted (l : list string) : list string := fold_right insert_uniq [] l.

Fixpoint index_of (s : string) (l : list string) : option nat :=
  match l with
  | [] => None
  | t :: l' => if String.eqb s t then Some O else option_map S (index_of s l')
  end.

(** Exceptions raised along the modelled paths. *)
Inductive exn :=
  | ValueError (msg : string)
  | NotFittedError                  (* a subclass of ValueError *)
  | AttributeError (msg : string)
  | KeyError (key : string)
  | FileNotFoundError (msg : string)
  | IsADirectoryError
  | NotADirectoryError.

(** [except ValueError] catches [ValueError] and its subclasses. *)
Definition is_ValueError (e : exn) : bool :=
  match e with ValueError _ | NotFittedError => true | _ => false end.

(** [LabelEncoder.transform] of one label; [classes_] is [None] before [fit]. *)
Definition le_transform1 (classes_ : option (list string)) (s : string) : exn + Z :=
  match classes_ with
  | None => inl NotFittedError
  | Some cls =>
      match index_of s cls with
      | Some i => inr (Z.of_nat i)
      | None => inl (ValueError "y contains previously unseen labels")
      end
  end.

(** [LabelEncoder.fit_transform]: classes and codes. *)
Definition le_fit_transform (ys : list string) : list string * list Z :=
  let cls := unique_sorted ys in
  (cls, map (fun s => match index_of s cls with Some i => Z.of_nat i | None => 0%Z end) ys).

(* ------------------------------------------------------------------ *)
(** ** sklearn: [train_test_split(..., test_size=0.2, random_state=42)] *)

(** [_validate_shuffle_split] with [test_size=0.2], [train_size=None]:
    [n_test = ceil(0.2 * n)] (the float product is exact enough that this
    is [ceil(n / 5)]), [n_train = n - n_test]. *)
Definition validate_shuffle_split (n_samples : nat) : exn + (nat * nat) :=
  let n_test := Nat.div (n_samples + 4) 5 in
  let n_train := (n_samples - n_test)%nat in
  if Nat.eqb n_train 0
  then inl (ValueError "the resulting train set will be empty. Adjust any of the aforementioned parameters.")
  else inr (n_train, n_test).

(** The seeded random generator of the split: [RandomState(42).permutation(n)]
    and the index allocation of [StratifiedShuffleSplit]. *)
Class SplitRNG := {
  permutation : nat -> list nat;
  permutation_ok : forall n, Permutation (permutation n) (seq 0 n);
  stratified_indices : nat -> nat -> list Z -> list nat * list nat
}.

(** Distinct values and their counts ([np.unique(y, return_counts=True)]). *)
Fixpoint count_Z (z : Z) (l : list Z) : nat :=
  match l with [] => O | x :: l' => if Z.eqb x z then S (count_Z z l') else count_Z z l' end.

Fixpoint insert_uniq_Z (z : Z) (l : list Z) : list Z :=
  match l with
  | [] => [z]
  | t :: l' => if Z.eqb z t then l else if Z.ltb z t then z :: l else t :: insert_uniq_Z z l'
  end.

Definition unique_Z (l : list Z) : list Z := fold_right insert_uniq_Z [] l.

Definition class_counts (y : list Z) : list nat := map (fun z => count_Z z y) (unique_Z y).

Definition take_indices {A} (l : list A) (idx : list nat) : list A := omap (fun i => l !! i) idx.

Section Split.
Context `{RNG : SplitRNG}.

(** [ShuffleSplit]: [ind_test = perm[:n_test]],
    [ind_train = perm[n_test:n_test + n_train]]. *)
Definition shuffle_split (n : nat) : exn + (list nat * list nat) :=
  match validate_shuffle_split n with
  | inl e => inl e
  | inr (n_train, n_test) =>
      let perm := permutation n in
      inr (firstn n_train (skipn n_test perm), firstn n_test perm)
  end.

(** [StratifiedShuffleSplit]: the size validation, then its checks on the
    classes of [y]. *)
Definition stratified_split (n : nat) (y : list Z) : exn + (list nat * list nat) :=
  match validate_shuffle_split n with
  | inl e => inl e
  | inr (n_train, n_test) =>
      let n_classes := length (unique_Z y) in
      if existsb (fun c => Nat.ltb c 2) (class_counts y)
      then inl (ValueError "The least populated class in y has only 1 member, which is too few.")
      else if Nat.ltb n_train n_classes
      then inl (ValueError "The train_size should be greater or equal to the number of classes")
      else if Nat.ltb n_test n_classes
      then inl (ValueError "The test_size should be greater or equal to the number of classes")
      else inr (stratified_indices n_train n_test y)
  end.

(** [train_test_split(X, y, test_size=0.2, random_state=42[, stratify=y])]:
    [(X_train, X_test, y_train, y_test)]. *)
Definition train_test_split {A B} (X : list A) (y : list B) (stratify : option (list Z))
    : exn + (list A * list A * list B * list B) :=
  let split := match stratify with
               | None => shuffle_split (length X)
               | Some ys => stratified_split (length X) ys
               end in
  match split with
  | inl e => inl e
  | inr (train, test) =>
      inr (take_indices X train, take_indices X test, take_indices y train, take_indices y test)
  end.

End Split.

(* ------------------------------------------------------------------ *)
(** ** sklearn metrics *)

Definition mean_Q (l : list Q) : Q := (sumQ l / Q_of_nat (length l))%Q.

(** [r2_score(y_true, y_pred)] ([force_finite=True]); NaN with fewer than
    two samples. *)
Definition r2_score (y_true y_pred : list Q) : pyfloat :=
  if Nat.ltb (length y_pred) 2 then PNaN
  else
    let ybar := mean_Q y_true in
    let numerator := sumQ (zip_with (fun y p => (y - p) * (y - p)) y_true y_pred)%Q in
    let denominator := sumQ (map (fun y => (y - ybar) * (y - ybar)) y_true)%Q in
    if Qeq_bool numerator 0 then PFin 1
    else if Qeq_bool denominator 0 then PFin 0
    else PFin (1 - numerator / denominator)%Q.

Definition mean_squared_error (y_true y_pred : list Q) : Q :=
  mean_Q (zip_with (fun y p => (y - p) * (y - p)) y_true y_pred)%Q.

Definition mean_absolute_error (y_true y_pred : list Q) : Q :=
  mean_Q (zip_with (fun y p => Qabs (y - p)) y_true y_pred)%Q.

Definition accuracy_score (y_true y_pred : list Z) : Q :=
  (Q_of_nat (length (filter (fun p => Z.eqb p.1 p.2) (zip y_true y_pred)))
   / Q_of_nat (length y_true))%Q.

(** [confusion_matrix(y_true, y_pred)]: rows and columns indexed by the
    sorted labels occurring in either vector. *)
Definition confusion_matrix (y_true y_pred : list Z) : list (list nat) :=
  let labels := unique_Z (y_true ++ y_pred) in
  map (fun i => map (fun j =>
         length (filter (fun p => Z.eqb p.1 i && Z.eqb p.2 j) (zip y_true y_pred))) labels) labels.

(* ------------------------------------------------------------------ *)
(** ** The estimators of the ML library (black boxes) *)

(** [models_to_test], in dict (insertion) order. *)
Inductive candidate := RandomForest | GradientBoosting | LinearRegression.

Definition models_to_test : list candidate := [RandomForest; GradientBoosting; LinearRegression].

(** The estimator interface the pipeline uses: [StandardScaler]
    ([fit], row-wise [transform]), the three regressors and the
    [RandomForestClassifier] ([fit], row-wise [predict], [predict_proba]). *)
Class Estimators := {
  scaler : Type;
  scaler_fit : list (list Q) -> scaler;
  scaler_transform : scaler -> list Q -> list Q;
  regressor : Type;
  reg_fit : candidate -> list (list Q) -> list Q -> regressor;
  reg_predict : regressor -> list Q -> Q;
  classifier : Type;
  clf_fit : list (list Q) -> list Z -> classifier;
  clf_predict : classifier -> list Q -> Z;
  clf_predict_proba : classifier -> list Q -> list Q
}.

(** Every estimator [fit] the pipeline performs, in order. *)
Inductive fit_event := FitScaler | FitRegressor (c : candidate) | FitClassifier.

(* ------------------------------------------------------------------ *)
(** ** Metrics records *)

(** Per-target regression metrics; [rmse = np.sqrt(mse)] is kept as its
    square [rmse_sq]. *)
Record target_metrics := {
  r2 : pyfloat;
  mse : Q;
  mae : Q;
  rmse_sq : Q
}.

Record reg_metrics := {
  m_flowrate : target_metrics;
  m_pressure : target_metrics;
  m_temperature : target_metrics;
  training_samples : nat;
  test_samples : nat;
  total_samples : nat;
  equipment_types : list string
}.

Record clf_metrics := {
  accuracy : Q;
  c_training_samples : nat;
  c_test_samples : nat;
  c_equipment_types : list string;
  c_confusion_matrix : list (list nat)
}.

(** Values of the [training_history] dict. *)
Inductive hist_entry := HEmpty | HReg (m : reg_metrics) | HClf (m : clf_metrics).

Record train_result := {
  regression : reg_metrics;
  classification : clf_metrics;
  status : string
}.

Section Model.
Context `{E : Estimators}.

(** A fitted regressor keeps its class ([type(model)]). *)
Definition fitted_reg : Type := (candidate * regressor)%type.

(** The attributes of an [EquipmentMLModel] object.  An unfitted
    [LabelEncoder] / [StandardScaler] is [None]. *)
Record ml_state := {
  model_flowrate : option fitted_reg;
  model_pressure : option fitted_reg;
  model_temperature : option fitted_reg;
  classifier_model : option classifier;
  label_encoder : option (list string);
  scaler_regression : option scaler;
  scaler_classification : option scaler;
  feature_names : list string;
  is_trained : bool;
  training_history : gmap string hist_entry
}.

(** [EquipmentMLModel.__init__] *)
Definition init_state : ml_state := {|
  model_flowrate := None; model_pressure := None; model_temperature := None;
  classifier_model := None;
  label_encoder := None; scaler_regression := None; scaler_classification := None;
  feature_names := [];
  is_trained := false;
  training_history := {[ "regression" := HEmpty; "classification" := HEmpty ]}
|}.


(** Attribute assignments [self.<attr> = v]. *)
Definition set_model_flowrate v (s : ml_state) : ml_state :=
  {| model_flowrate := v; model_pressure := model_pressure s; model_temperature := model_temperature s; classifier_model := classifier_model s; label_encoder := label_encoder s; scaler_regression := scaler_regression s; scaler_classification := scaler_classification s; feature_names := feature_names s; is_trained := is_trained s; training_history := training_history s |}.

Definition set_model_pressure v (s : ml_state) : ml_state :=
  {| model_flowrate := model_flowrate s; model_pressure := v; model_temperature := model_temperature s; classifier_model := classifier_model s; label_encoder := label_encoder s; scaler_regression := scaler_regression s; scaler_classification := scaler_classification s; feature_names := feature_names s; is_trained := is_trained s; training_history := training_history s |}.

Definition set_model_temperature v (s : ml_state) : ml_state :=
  {| model_flowrate := model_flowrate s; model_pressure := model_pressure s; model_temperature := v; classifier_model := classifier_model s; label_encoder := label_encoder s; scaler_regression := scaler_regression s; scaler_classification := scaler_classification s; feature_names := feature_names s; is_trained := is_trained s; training_history := training_history s |}.

Definition set_classifier_model v (s : ml_state) : ml_state :=
  {| model_flowrate := model_flowrate s; model_pressure := model_pressure s; model_temperature := model_temperature s; classifier_model := v; label_encoder := label_encoder s; scaler_regression := scaler_regression s; scaler_classification := scaler_classification s; feature_names := feature_names s; is_trained := is_trained s; training_history := training_history s |}.

Definition set_label_encoder v (s : ml_state) : ml_state :=
  {| model_flowrate := model_flowrate s; model_pressure := model_pressure s; model_temperature := model_temperature s; classifier_model := classifier_model s; label_encoder := v; scaler_regression := scaler_regression s; scaler_classification := scaler_classification s; feature_names := feature_names s; is_trained := is_trained s; training_history := training_history s |}.

Definition set_scaler_regression v (s : ml_state) : ml_state :=
  {| model_flowrate := model_flowrate s; model_pressure := model_pressure s; model_temperature := model_temperature s; classifier_model := classifier_model s; label_encoder := label_encoder s; scaler_regression := v; scaler_classification := scaler_classification s; feature_names := feature_names s; is_trained := is_trained s; training_history := training_history s |}.

Definition set_scaler_classification v (s : ml_state) : ml_state :=
  {| model_flowrate := model_flowrate s; model_pressure := model_pressure s; model_temperature := model_temperature s; classifier_model := classifier_model s; label_encoder := label_encoder s; scaler_regression := scaler_regression s; scaler_classification := v; feature_names := feature_names s; is_trained := is_trained s; training_history := training_history s |}.

Definition set_feature_names v (s : ml_state) : ml_state :=
  {| model_flowrate := model_flowrate s; model_pressure := model_pressure s; model_temperature := model_temperature s; classifier_model := classifier_model s; label_encoder := label_encoder s; scaler_regression := scaler_regression s; scaler_classification := scaler_classification s; feature_names := v; is_trained := is_trained s; training_history := training_history s |}.

Definition set_is_trained v (s : ml_state) : ml_state :=
  {| model_flowrate := model_flowrate s; model_pressure := model_pressure s; model_temperature := model_temperature s; classifier_model := classifier_model s; label_encoder := label_encoder s; scaler_regression := scaler_regression s; scaler_classification := scaler_classification s; feature_names := feature_names s; is_trained := v; training_history := training_history s |}.

Definition set_training_history v (s : ml_state) : ml_state :=
  {| model_flowrate := model_flowrate s; model_pressure := model_pressure s; model_temperature := model_temperature s; classifier_model := classifier_model s; label_encoder := label_encoder s; scaler_regression := scaler_regression s; scaler_classification := scaler_classification s; feature_names := feature_names s; is_trained := is_trained s; training_history := v |}.

(* ------------------------------------------------------------------ *)
(** ** A state/exception monad over [self], with the fit trace *)

Definition M (A : Type) : Type :=
  ml_state * list fit_event -> (exn + A) * (ml_state * list fit_event).

Definition ret {A} (a : A) : M A := fun w => (inr a, w).

Definition bind {A B} (m : M A) (k : A -> M B) : M B :=
  fun w => match m w with
           | (inl e, w') => (inl e, w')
           | (inr a, w') => k a w'
           end.

Definition raise {A} (e : exn) : M A := fun w => (inl e, w).

Definition lift {A} (r : exn + A) : M A := fun w => (r, w).

Definition get_self : M ml_state := fun w => (inr w.1, w).

Definition modify_self (f : ml_state -> ml_state) : M unit := fun w => (inr tt, (f w.1, w.2)).

Definition log_fit (ev : fit_event) : M unit := fun w => (inr tt, (w.1, w.2 ++ [ev])).

End Model.

Arguments ret {_ _} _ _.
Arguments raise {_ _} _ _.
Arguments lift {_ _} _ _.

Notation "x <- m ;; k" := (bind m (fun x => k)) (at level 100, m at next level, right associativity).
Notation "m ;; k" := (bind m (fun _ => k)) (at level 100, right associativity).

(* ------------------------------------------------------------------ *)
(** ** Training *)

Section Pipeline.
Context `{E : Estimators} `{RNG : SplitRNG}.

Definition log_fits (evs : list fit_event) : M unit := fun w => (inr tt, (w.1, w.2 ++ evs)).

(** [data['Flowrate']] etc. after cleaning (no cell is missing there). *)
Definition col_values (c : numeric_col) (data : list row) : list Q :=
  map (fun r => from_option id 0%Q (get_col c r)) data.

(** [prepare_data]: clean, encode [Type], [X = data[['Type_Encoded']]]. *)
Definition prepare_data (df : list row) : M (list (list Q) * list Q * list Q * list Q) :=
  let data := clean_data df in
  let '(cls, codes) := le_fit_transform (map Type_ data) in
  modify_self (set_label_encoder (Some cls)) ;;
  modify_self (set_feature_names ["Type_Encoded"]) ;;
  ret (map (fun z => [inject_Z z]) codes,
       col_values Flowrate_c data, col_values Pressure_c data, col_values Temperature_c data).

(** Fit one candidate on the training split and score it by [r2_score]
    on the test split. *)
Definition candidate_score (X_train : list (list Q)) (y_train : list Q)
    (X_test : list (list Q)) (y_test : list Q) (c : candidate) : fitted_reg * pyfloat :=
  let model := reg_fit c X_train y_train in
  ((c, model), r2_score y_test (map (reg_predict model) X_test)).

(** The selection loop: [if r2 > best_score: best_score = r2;
    self.model_<target> = model], starting from [best_score = -np.inf]. *)
Fixpoint select_best (best : pyfloat) (kept : option fitted_reg)
    (scored : list (fitted_reg * pyfloat)) : option fitted_reg :=
  match scored with
  | [] => kept
  | (model, score) :: rest =>
      if py_gt score best then select_best score (Some model) rest
      else select_best best kept rest
  end.

(** One of the three loops of [train_regression_models]. *)
Definition select_target (get : ml_state -> option fitted_reg)
    (set : option fitted_reg -> ml_state -> ml_state)
    (X_train : list (list Q)) (y_train : list Q) (X_test : list (list Q)) (y_test : list Q)
    : M unit :=
  log_fits (map FitRegressor models_to_test) ;;
  s <- get_self ;;
  modify_self (set (select_best PNegInf (get s)
                      (map (candidate_score X_train y_train X_test y_test) models_to_test))).

Definition target_metrics_of (y_test pred : list Q) : target_metrics := {|
  r2 := r2_score y_test pred;
  mse := mean_squared_error y_test pred;
  mae := mean_absolute_error y_test pred;
  rmse_sq := mean_squared_error y_test pred
|}.

(** [EquipmentMLModel.train_regression_models] *)
Definition train_regression_models (df : list row) : M reg_metrics :=
  p <- prepare_data df ;;
  let '(X, y_flowrate, y_pressure, y_temperature) := p in
  sp1 <- lift (train_test_split X y_flowrate None) ;;
  let '(X_train, X_test, y_flow_train, y_flow_test) := sp1 in
  sp2 <- lift (train_test_split X y_pressure None) ;;
  let '(_, _, y_pres_train, y_pres_test) := sp2 in
  sp3 <- lift (train_test_split X y_temperature None) ;;
  let '(_, _, y_temp_train, y_temp_test) := sp3 in
  log_fit FitScaler ;;
  let sc := scaler_fit X_train in
  modify_self (set_scaler_regression (Some sc)) ;;
  let X_train_scaled := map (scaler_transform sc) X_train in
  let X_test_scaled := map (scaler_transform sc) X_test in
  select_target model_flowrate set_model_flowrate X_train_scaled y_flow_train X_test_scaled y_flow_test ;;
  select_target model_pressure set_model_pressure X_train_scaled y_pres_train X_test_scaled y_pres_test ;;
  select_target model_temperature set_model_temperature X_train_scaled y_temp_train X_test_scaled y_temp_test ;;
  s <- get_self ;;
  match model_flowrate s, model_pressure s, model_temperature s with
  | Some (_, mf), Some (_, mp), Some (_, mt) =>
      let flow_pred := map (reg_predict mf) X_test_scaled in
      let pres_pred := map (reg_predict mp) X_test_scaled in
      let temp_pred := map (reg_predict mt) X_test_scaled in
      let metrics := {|
        m_flowrate := target_metrics_of y_flow_test flow_pred;
        m_pressure := target_metrics_of y_pres_test pres_pred;
        m_temperature := target_metrics_of y_temp_test temp_pred;
        training_samples := length X_train;
        test_samples := length X_test;
        total_samples := length X;
        equipment_types := from_option id [] (label_encoder s) |} in
      modify_self (set_training_history (<["regression" := HReg metrics]> (training_history s))) ;;
      ret metrics
  | _, _, _ => raise (AttributeError "'NoneType' object has no attribute 'predict'")
  end.

(** [all(count >= 2 for count in counts)] *)
Definition can_stratify (y : list Z) : bool :=
  forallb (fun count => Nat.leb 2 count) (class_counts y).

(** The split of [train_classification_model]. *)
Definition classification_split (X : list (list Q)) (y : list Z)
    : exn + (list (list Q) * list (list Q) * list Z * list Z) :=
  if can_stratify y then train_test_split X y (Some y) else train_test_split X y None.

(** [EquipmentMLModel.train_classification_model] *)
Definition train_classification_model (df : list row) : M clf_metrics :=
  let data := clean_data df in
  let X := map (fun r => [from_option id 0%Q (Flowrate r); from_option id 0%Q (Pressure r);
                          from_option id 0%Q (Temperature r)]) data in
  let '(cls, y) := le_fit_transform (map Type_ data) in
  modify_self (set_label_encoder (Some cls)) ;;
  sp <- lift (classification_split X y) ;;
  let '(X_train, X_test, y_train, y_test) := sp in
  log_fit FitScaler ;;
  let sc := scaler_fit X_train in
  modify_self (set_scaler_classification (Some sc)) ;;
  let X_train_scaled := map (scaler_transform sc) X_train in
  let X_test_scaled := map (scaler_transform sc) X_test in
  log_fit FitClassifier ;;
  let clf := clf_fit X_train_scaled y_train in
  modify_self (set_classifier_model (Some clf)) ;;
  let y_pred := map (clf_predict clf) X_test_scaled in
  s <- get_self ;;
  let metrics := {|
    accuracy := accuracy_score y_test y_pred;
    c_training_samples := length X_train;
    c_test_samples := length X_test;
    c_equipment_types := from_option id [] (label_encoder s);
    c_confusion_matrix := confusion_matrix y_test y_pred |} in
  modify_self (set_training_history (<["classification" := HClf metrics]> (training_history s))) ;;
  ret metrics.

(** [EquipmentMLModel.train] *)
Definition train (df : list row) : M train_result :=
  regression_metrics <- train_regression_models df ;;
  classification_metrics <- train_classification_model df ;;
  modify_self (set_is_trained true) ;;
  ret {| regression := regression_metrics; classification := classification_metrics;
         status := "success" |}.

End Pipeline.

(* ------------------------------------------------------------------ *)
(** ** Prediction *)

(** Round half to even, the rounding of Python's [round]. *)
Definition round_half_even (y : Q) : Z :=
  let f := Qfloor y in
  let d := (y - inject_Z f)%Q in
  if Qltb d (1 # 2) then f
  else if Qltb (1 # 2) d then (f + 1)%Z
  else if Z.even f then f else (f + 1)%Z.

(** [round(x, 2)] *)
Definition round2 (x : Q) : Q := (inject_Z (round_half_even (100 * x)) / 100)%Q.

Record prediction := {
  p_equipment_type : string;
  predicted_flowrate : Q;
  predicted_pressure : Q;
  predicted_temperature : Q
}.

Section Predict.
Context `{E : Estimators}.

(** [EquipmentMLModel.predict] *)
Definition predict (equipment_type : string) : M prediction :=
  s <- get_self ;;
  if negb (is_trained s) then raise (ValueError "Model not trained yet") else
  type_encoded <- (match le_transform1 (label_encoder s) equipment_type with
                   | inr code => ret code
                   | inl e => if is_ValueError e then ret 0%Z else raise e
                   end) ;;
  match scaler_regression s with
  | None => raise NotFittedError
  | Some sc =>
      let X_pred_scaled := scaler_transform sc [inject_Z type_encoded] in
      match model_flowrate s, model_pressure s, model_temperature s with
      | Some (_, mf), Some (_, mp), Some (_, mt) =>
          ret {| p_equipment_type := equipment_type;
                 predicted_flowrate := round2 (reg_predict mf X_pred_scaled);
                 predicted_pressure := round2 (reg_predict mp X_pred_scaled);
                 predicted_temperature := round2 (reg_predict mt X_pred_scaled) |}
      | _, _, _ => raise (AttributeError "'NoneType' object has no attribute 'predict'")
      end
  end.

End Predict.

(* ------------------------------------------------------------------ *)
(** ** Persistence *)

(** A file path, as its list of components. *)
Abbreviation path := (list string).

Definition parent (p : path) : path := removelast p.

Section Persistence.
Context `{E : Estimators}.

(** The pickled [model_data] dict; a key absent from the dict is [None]. *)
Record blob := {
  k_model_flowrate : option (option fitted_reg);
  k_model_pressure : option (option fitted_reg);
  k_model_temperature : option (option fitted_reg);
  k_classifier_model : option (option classifier);
  k_scaler_regression : option (option scaler);
  k_scaler_classification : option (option scaler);
  k_label_encoder : option (option (list string));
  k_feature_names : option (list string);
  k_training_history : option (gmap string hist_entry);
  k_is_trained : option bool
}.

(** Directories and files; the root [[]] always exists. *)
Record filesystem := {
  fs_dirs : gset path;
  fs_files : gmap path blob
}.

Definition dir_exists (fs : filesystem) (d : path) : bool :=
  bool_decide (d = []) || bool_decide (d ∈ fs_dirs fs).

(** [os.path.exists] *)
Definition path_exists (fs : filesystem) (p : path) : bool :=
  dir_exists fs p || bool_decide (is_Some (fs_files fs !! p)).

(** [with open(filepath, 'wb') as f: pickle.dump(b, f)] *)
Definition write_file (fs : filesystem) (p : path) (b : blob) : exn + filesystem :=
  if dir_exists fs p then inl IsADirectoryError
  else if dir_exists fs (parent p)
  then inr {| fs_dirs := fs_dirs fs; fs_files := <[p := b]> (fs_files fs) |}
  else if bool_decide (is_Some (fs_files fs !! parent p)) then inl NotADirectoryError
  else inl (FileNotFoundError "No such file or directory").

(** [model_data] of [save_model]. *)
Definition blob_of (s : ml_state) : blob := {|
  k_model_flowrate := Some (model_flowrate s);
  k_model_pressure := Some (model_pressure s);
  k_model_temperature := Some (model_temperature s);
  k_classifier_model := Some (classifier_model s);
  k_scaler_regression := Some (scaler_regression s);
  k_scaler_classification := Some (scaler_classification s);
  k_label_encoder := Some (label_encoder s);
  k_feature_names := Some (feature_names s);
  k_training_history := Some (training_history s);
  k_is_trained := Some (is_trained s)
|}.

(** [EquipmentMLModel.save_model]: the new file system. *)
Definition save_model (filepath : path) (fs : filesystem) : M filesystem :=
  s <- get_self ;;
  if negb (is_trained s) then raise (ValueError "Model not trained yet")
  else lift (write_file fs filepath (blob_of s)).

(** [model_data[key]] *)
Definition required {A} (key : string) (v : option A) : M A :=
  match v with Some a => ret a | None => raise (KeyError key) end.

(** [EquipmentMLModel.load_model] *)
Definition load_model (filepath : path) (fs : filesystem) : M unit :=
  if negb (path_exists fs filepath) then raise (FileNotFoundError "Model file not found")
  else
  match fs_files fs !! filepath with
  | None => raise IsADirectoryError
  | Some model_data =>
      v1 <- required "model_flowrate" (k_model_flowrate model_data) ;;
      modify_self (set_model_flowrate v1) ;;
      v2 <- required "model_pressure" (k_model_pressure model_data) ;;
      modify_self (set_model_pressure v2) ;;
      v3 <- required "model_temperature" (k_model_temperature model_data) ;;
      modify_self (set_model_temperature v3) ;;
      modify_self (set_classifier_model (from_option id None (k_classifier_model model_data))) ;;
      modify_self (set_scaler_regression (from_option id None (k_scaler_regression model_data))) ;;
      modify_self (set_scaler_classification
                     (from_option id None (k_scaler_classification model_data))) ;;
      v7 <- required "label_encoder" (k_label_encoder model_data) ;;
      modify_self (set_label_encoder v7) ;;
      v8 <- required "feature_names" (k_feature_names model_data) ;;
      modify_self (set_feature_names v8) ;;
      modify_self (set_training_history (from_option id ∅ (k_training_history model_data))) ;;
      v10 <- required "is_trained" (k_is_trained model_data) ;;
      modify_self (set_is_trained v10)
  end.

End Persistence.

(* ------------------------------------------------------------------ *)
(** ** Sample estimators and data, to run the pipeline on *)

(** Identity scaling; each regressor predicts a constant fitted from the
    targets; the classifier predicts the first training label. *)
Definition demo_estimators : Estimators := {|
  scaler := unit;
  scaler_fit := fun _ => tt;
  scaler_transform := fun _ x => x;
  regressor := Q;
  reg_fit := fun c _ y =>
    match c with
    | RandomForest => mean_Q y
    | GradientBoosting => hd 0%Q y
    | LinearRegression => 0%Q
    end;
  reg_predict := fun q _ => q;
  classifier := Z;
  clf_fit := fun _ y => hd 0%Z y;
  clf_predict := fun z _ => z;
  clf_predict_proba := fun _ _ => [1%Q]
|}.

(** The identity permutation and a first-indices stratified allocation. *)
Definition demo_rng : SplitRNG := {|
  permutation := fun n => seq 0 n;
  permutation_ok := fun n => Permutation_refl (seq 0 n);
  stratified_indices := fun n_train n_test _ => (seq n_test n_train, seq 0 n_test)
|}.

Definition sample_row (name type : string) (f p t : Q) : row :=
  mk_row name type (Some f) (Some p) (Some t).

(** Ten rows, no missing value, no outlier. *)
Definition sample10 : list row := [
  sample_row "P1" "Pump" 120 5 110; sample_row "P2" "Pump" 130 6 115;
  sample_row "P3" "Pump" 125 5 112; sample_row "V1" "Valve" 60 4 100;
  sample_row "V2" "Valve" 70 3 104; sample_row "V3" "Valve" 65 4 102;
  sample_row "R1" "Reactor" 150 9 300; sample_row "R2" "Reactor" 160 10 320;
  sample_row "C1" "Compressor" 95 8 95; sample_row "C2" "Compressor" 90 7 98 ].

(** Ten rows whose first flowrate lies exactly 3 standard deviations
    from the mean (mean 19, std 27, z = 81 / 27 = 3, also in floats). *)
Definition sample_z3 : list row := [
  sample_row "P1" "Pump" 100 1 1; sample_row "P2" "Pump" 10 2 2;
  sample_row "P3" "Pump" 10 3 3; sample_row "P4" "Pump" 10 4 4;
  sample_row "P5" "Pump" 10 5 5; sample_row "V1" "Valve" 10 6 6;
  sample_row "V2" "Valve" 10 7 7; sample_row "V3" "Valve" 10 8 8;
  sample_row "V4" "Valve" 10 9 9; sample_row "V5" "Valve" 10 10 10 ].

(** Three rows with the same pressure. *)
Definition sample_const3 : list row := [
  sample_row "P1" "Pump" 120 5 110; sample_row "V1" "Valve" 60 5 100;
  sample_row "R1" "Reactor" 150 5 300 ].

(** Three rows, every column varies. *)
Definition sample_small3 : list row := [
  sample_row "P1" "Pump" 120 5 110; sample_row "V1" "Valve" 60 4 100;
  sample_row "R1" "Reactor" 150 9 300 ].

(** Ten rows of two types, five each, on which [train] succeeds. *)
Definition sample_pv : list row := [
  sample_row "P1" "Pump" 120 5 110; sample_row "P2" "Pump" 130 6 115;
  sample_row "P3" "Pump" 125 5 112; sample_row "P4" "Pump" 128 7 111;
  sample_row "P5" "Pump" 122 6 113; sample_row "V1" "Valve" 60 4 100;
  sample_row "V2" "Valve" 70 3 104; sample_row "V3" "Valve" 65 4 102;
  sample_row "V4" "Valve" 62 3 101; sample_row "V5" "Valve" 68 5 103 ].

(** The path [train_model] of the views saves to. *)
Definition sample_path : path := ["media"; "ml_models"; "model_user_1.pkl"].

(** A file system without [media/ml_models], and one with it. *)
Definition empty_fs : @filesystem demo_estimators := {| fs_dirs := ∅; fs_files := ∅ |}.

Definition media_fs : @filesystem demo_estimators :=
  {| fs_dirs := {[ ["media"]; ["media"; "ml_models"] ]}; fs_files := ∅ |}.

(** A bundle file without the keys [classifier_model], both scalers,
    [feature_names] and [training_history]. *)
Definition old_blob : @blob demo_estimators := {|
  k_model_flowrate := Some (Some ((RandomForest, 120%Q) : @fitted_reg demo_estimators));
  k_model_pressure := Some (Some ((GradientBoosting, 5%Q) : @fitted_reg demo_estimators));
  k_model_temperature := Some (Some ((LinearRegression, 0%Q) : @fitted_reg demo_estimators));
  k_classifier_model := None;
  k_scaler_regression := None;
  k_scaler_classification := None;
  k_label_encoder := Some (Some ["Pump"; "Valve"]);
  k_feature_names := None;
  k_training_history := None;
  k_is_trained := Some true
|}.

(** [old_blob] with a [feature_names] key. *)
Definition old_blob_fn : @blob demo_estimators := {|
  k_model_flowrate := k_model_flowrate old_blob;
  k_model_pressure := k_model_pressure old_blob;
  k_model_temperature := k_model_temperature old_blob;
  k_classifier_model := None;
  k_scaler_regression := None;
  k_scaler_classification := None;
  k_label_encoder := k_label_encoder old_blob;
  k_feature_names := Some ["Type_Encoded"];
  k_training_history := None;
  k_is_trained := Some true
|}.

Definition old_fs : @filesystem demo_estimators :=
  {| fs_dirs := {[ ["media"]; ["media"; "ml_models"] ]}; fs_files := {[ sample_path := old_blob ]} |}.

Definition old_fs_fn : @filesystem demo_estimators :=
  {| fs_dirs := {[ ["media"]; ["media"; "ml_models"] ]}; fs_files := {[ sample_path := old_blob_fn ]} |}.

(** A state whose [is_trained] flag is set. *)
Definition trained_demo_state : @ml_state demo_estimators := set_is_trained true init_state.

(* ------------------------------------------------------------------ *)
(** ** Predicates used in the statements *)

(** Every row has a value in column [c]. *)
Definition col_present (c : numeric_col) (df : list row) : Prop :=
  Forall (fun r => is_Some (get_col c r)) df.

(** Two rows hold different values in column [c]. *)
Definition col_varies (c : numeric_col) (df : list row) : Prop :=
  exists r1 r2 a b, In r1 df /\ In r2 df /\ get_col c r1 = Some a /\ get_col c r2 = Some b /\
                    ~ (a == b)%Q.

(** All present values of column [c] are equal. *)
Definition col_constant (c : numeric_col) (df : list row) : Prop :=
  forall r1 r2 a b, In r1 df -> In r2 df -> get_col c r1 = Some a -> get_col c r2 = Some b ->
                    (a == b)%Q.

(** Every score of a scored list is a number. *)
Definition all_finite {A} (scored : list (A * pyfloat)) : Prop :=
  forall x sc, In (x, sc) scored -> exists q, sc = PFin q.

(** The code [LabelEncoder] gives a label. *)
Definition encode (cls : list string) (s : string) : Z :=
  match index_of s cls with Some i => Z.of_nat i | None => 0%Z end.

(* ------------------------------------------------------------------ *)
(** ** [predict_type] *)

(** [LabelEncoder.inverse_transform] of one code: [classes_[y]] after the
    check that [y] lies in [range(len(classes_))]. *)
Definition le_inverse_transform1 (classes_ : option (list string)) (y : Z) : exn + string :=
  match classes_ with
  | None => inl NotFittedError
  | Some cls =>
      match (if Z.leb 0 y then nth_error cls (Z.to_nat y) else None) with
      | Some s => inr s
      | None => inl (ValueError "y contains previously unseen labels")
      end
  end.

(** Python's [max] over a sequence: the first largest element. *)
Definition py_max (l : list Q) : exn + Q :=
  match l with
  | [] => inl (ValueError "max() arg is an empty sequence")
  | x :: l' => inr (fold_left (fun m y => if Qltb m y then y else m) l' x)
  end.

Record type_prediction := {
  predicted_type : string;
  confidence : Q;
  input_parameters : Q * Q * Q
}.

Section PredictType.
Context `{E : Estimators}.

(** [EquipmentMLModel.predict_type] *)
Definition predict_type (flowrate pressure temperature : Q) : M type_prediction :=
  s <- get_self ;;
  if negb (is_trained s) then raise (ValueError "Classification model not trained yet") else
  match classifier_model s with
  | None => raise (ValueError "Classification model not trained yet")
  | Some clf =>
      match scaler_classification s with
      | None => raise NotFittedError
      | Some sc =>
          let X_pred_scaled := scaler_transform sc [flowrate; pressure; temperature] in
          let predicted_type_encoded := clf_predict clf X_pred_scaled in
          predicted_type <- lift (le_inverse_transform1 (label_encoder s) predicted_type_encoded) ;;
          let probabilities := clf_predict_proba clf X_pred_scaled in
          confidence <- lift (py_max probabilities) ;;
          ret {| predicted_type := predicted_type;
                 confidence := round2 (confidence * 100);
                 input_parameters := (flowrate, pressure, temperature) |}
      end
  end.

End PredictType.

(* ------------------------------------------------------------------ *)
(** ** [get_feature_importance] *)

(** [hasattr(model, 'feature_importances_')] for a fitted regressor: the
    forest and the boosting regressors have it, [LinearRegression] has not. *)
Definition has_feature_importances (c : candidate) : bool :=
  match c with RandomForest | GradientBoosting => true | LinearRegression => false end.

Record importance_entry := {
  features : list string;
  importance : list Q
}.

Section FeatureImportance.
Context `{E : Estimators}.
(** [feature_importances_.tolist()] of a fitted regressor / classifier. *)
Variable reg_feature_importances : regressor -> list Q.
Variable clf_feature_importances : classifier -> list Q.

(** [if hasattr(self.model_<key>, 'feature_importances_'):
        importance_data[key] = {...}] ([hasattr(None, ...)] is false). *)
Definition reg_importance (key : string) (m : option fitted_reg) (s : ml_state)
    (importance_data : gmap string importance_entry) : gmap string importance_entry :=
  match m with
  | Some (c, r) =>
      if has_feature_importances c
      then <[key := {| features := feature_names s; importance := reg_feature_importances r |}]>
             importance_data
      else importance_data
  | None => importance_data
  end.

(** [EquipmentMLModel.get_feature_importance].  A fitted
    [RandomForestClassifier] is truthy ([len] is its number of trees). *)
Definition get_feature_importance : M (gmap string importance_entry) :=
  s <- get_self ;;
  if negb (is_trained s) then raise (ValueError "Model not trained yet") else
  let importance_data := reg_importance "flowrate" (model_flowrate s) s ∅ in
  let importance_data := reg_importance "pressure" (model_pressure s) s importance_data in
  let importance_data := reg_importance "temperature" (model_temperature s) s importance_data in
  let importance_data :=
    match classifier_model s with
    | Some clf =>
        <["classification" := {| features := ["Flowrate"; "Pressure"; "Temperature"];
                                 importance := clf_feature_importances clf |}]> importance_data
    | None => importance_data
    end in
  ret importance_data.

End FeatureImportance.

(* ------------------------------------------------------------------ *)
(** ** The views of [views.py] that use the model *)

(** [os.path.join(settings.MEDIA_ROOT, 'ml_models')] *)
Definition model_dir (media_root : path) : path := media_root ++ ["ml_models"].

(** [os.path.join(settings.MEDIA_ROOT, 'ml_models', f'model_user_{request.user.id}.pkl')] *)
Definition model_path (media_root : path) (user_id : N) : path :=
  model_dir media_root ++ ["model_user_" +:+ pretty user_id +:+ ".pkl"].

(** Errors of the views' [os] calls besides those of [exn]. *)
Inductive os_exn := OSE (e : exn) | FileExistsError.

Section Views.
Context `{E : Estimators} `{RNG : SplitRNG}.

(** [os.makedirs(name, exist_ok=True)]: from the root down, an existing
    directory is kept and a missing one created; a file on the way makes
    [mkdir] fail ([FileExistsError] on [name] itself, which is not a
    directory; [NotADirectoryError] below it). *)
Fixpoint makedirs_from (fs : filesystem) (prefix rest : path) : option os_exn * filesystem :=
  match rest with
  | [] => (None, fs)
  | c :: rest' =>
      let p := prefix ++ [c] in
      if dir_exists fs p then makedirs_from fs p rest'
      else if bool_decide (is_Some (fs_files fs !! p))
      then (Some (match rest' with [] => FileExistsError | _ :: _ => OSE NotADirectoryError end), fs)
      else makedirs_from {| fs_dirs := {[p]} ∪ fs_dirs fs; fs_files := fs_files fs |} p rest'
  end.

Definition makedirs (fs : filesystem) (name : path) : option os_exn * filesystem :=
  makedirs_from fs [] name.

(** The ['metrics'] dict [predict_parameters] adds from
    [training_history['regression']]: [metrics.get('flowrate', {}).get('r2_score')], ... *)
Record pred_metrics := {
  pm_flowrate_r2 : option pyfloat;
  pm_pressure_r2 : option pyfloat;
  pm_temperature_r2 : option pyfloat;
  pm_training_samples : option nat
}.

(** The ['model_metrics'] dict of [get_all_predictions] (one key more). *)
Record model_metrics := {
  mm_flowrate_r2 : option pyfloat;
  mm_pressure_r2 : option pyfloat;
  mm_temperature_r2 : option pyfloat;
  mm_training_samples : option nat;
  mm_total_samples : option nat
}.

Definition pred_metrics_of (h : hist_entry) : pred_metrics :=
  match h with
  | HEmpty => {| pm_flowrate_r2 := None; pm_pressure_r2 := None; pm_temperature_r2 := None;
                 pm_training_samples := None |}
  | HReg m => {| pm_flowrate_r2 := Some (r2 (m_flowrate m)); pm_pressure_r2 := Some (r2 (m_pressure m));
                 pm_temperature_r2 := Some (r2 (m_temperature m));
                 pm_training_samples := Some (training_samples m) |}
  | HClf m => {| pm_flowrate_r2 := None; pm_pressure_r2 := None; pm_temperature_r2 := None;
                 pm_training_samples := Some (c_training_samples m) |}
  end.

Definition model_metrics_of (h : hist_entry) : model_metrics :=
  match h with
  | HEmpty => {| mm_flowrate_r2 := None; mm_pressure_r2 := None; mm_temperature_r2 := None;
                 mm_training_samples := None; mm_total_samples := None |}
  | HReg m => {| mm_flowrate_r2 := Some (r2 (m_flowrate m)); mm_pressure_r2 := Some (r2 (m_pressure m));
                 mm_temperature_r2 := Some (r2 (m_temperature m));
                 mm_training_samples := Some (training_samples m);
                 mm_total_samples := Some (total_samples m) |}
  | HClf m => {| mm_flowrate_r2 := None; mm_pressure_r2 := None; mm_temperature_r2 := None;
                 mm_training_samples := Some (c_training_samples m); mm_total_samples := None |}
  end.

(** The bodies of the responses. *)
Inductive response_body :=
  | RError (msg : string)                        (* {'error': msg} *)
  | RException (prefix : string) (e : os_exn)    (* {'error': f'{prefix}{str(e)}'} *)
  | RTrained (metrics : train_result)            (* 'Model trained successfully' *)
  | RPrediction (p : prediction) (metrics : option pred_metrics)
  | RTypePrediction (p : type_prediction)
  | RNoModelYet                                  (* empty predictions, 'Model not trained yet...' *)
  | RAllPredictions (predictions : list prediction) (model_metrics : option model_metrics)
                    (total_types : nat).

Record response := { status_code : nat; body : response_body }.

(** [train_model], from the combined [raw_data] rows of the selected
    datasets on: the response and the new file system. *)
Definition train_model_view (media_root : path) (user_id : N) (raw_data : list row)
    (fs : filesystem) : response * filesystem :=
  if Nat.ltb (length raw_data) 10
  then ({| status_code := 400;
           body := RError "Insufficient data for training. Need at least 10 samples." |}, fs)
  else
    match train raw_data (init_state, []) with
    | (inl e, _) => ({| status_code := 500; body := RException "Error training model: " (OSE e) |}, fs)
    | (inr metrics, w) =>
        match makedirs fs (model_dir media_root) with
        | (Some e, fs1) => ({| status_code := 500; body := RException "Error training model: " e |}, fs1)
        | (None, fs1) =>
            match save_model (model_path media_root user_id) fs1 w with
            | (inl e, _) =>
                ({| status_code := 500; body := RException "Error training model: " (OSE e) |}, fs1)
            | (inr fs2, _) => ({| status_code := 200; body := RTrained metrics |}, fs2)
            end
        end
    end.

(** [predict_parameters]; [equipment_type] is [request.data.get('equipment_type')]. *)
Definition predict_parameters_view (media_root : path) (user_id : N)
    (equipment_type : option string) (fs : filesystem) : response :=
  match equipment_type with
  | None | Some EmptyString => {| status_code := 400; body := RError "equipment_type field is required" |}
  | Some equipment_type =>
      let mp := model_path media_root user_id in
      if negb (path_exists fs mp)
      then {| status_code := 400;
              body := RError "Model not trained yet. Please train the model first." |}
      else
        match (load_model mp fs ;; predict equipment_type) (init_state, []) with
        | (inl e, _) => {| status_code := 500; body := RException "Error making prediction: " (OSE e) |}
        | (inr prediction, (s, _)) =>
            {| status_code := 200;
               body := RPrediction prediction
                         (option_map pred_metrics_of (training_history s !! "regression")) |}
        end
  end.

(** Python truthiness of a number: [None] and [0] are falsy. *)
Definition truthy (v : option Q) : bool :=
  match v with None => false | Some q => negb (Qeq_bool q 0) end.

(** [predict_equipment_type], for numeric request values. *)
Definition predict_equipment_type_view (media_root : path) (user_id : N)
    (flowrate pressure temperature : option Q) (fs : filesystem) : response :=
  if negb (truthy flowrate && truthy pressure && truthy temperature)
  then {| status_code := 400;
          body := RError "All parameters (flowrate, pressure, temperature) are required" |}
  else
    let mp := model_path media_root user_id in
    if negb (path_exists fs mp)
    then {| status_code := 400; body := RError "Model not trained yet. Please train the model first." |}
    else
      match flowrate, pressure, temperature with
      | Some f, Some p, Some t =>
          match (load_model mp fs ;; predict_type f p t) (init_state, []) with
          | (inl e, _) => {| status_code := 500; body := RException "Error making prediction: " (OSE e) |}
          | (inr prediction, _) => {| status_code := 200; body := RTypePrediction prediction |}
          end
      | _, _, _ => {| status_code := 400;
                      body := RError "All parameters (flowrate, pressure, temperature) are required" |}
      end.

(** [get_all_predictions]; [types] are the [row.get('Type')] of the user's
    datasets.  [predict] reads the object only, so each call starts from
    the loaded object. *)
Definition get_all_predictions_view (media_root : path) (user_id : N) (types : list string)
    (fs : filesystem) : response :=
  let mp := model_path media_root user_id in
  if negb (path_exists fs mp) then {| status_code := 200; body := RNoModelYet |}
  else
    match load_model mp fs (init_state, []) with
    | (inl e, _) => {| status_code := 500; body := RException "Error generating predictions: " (OSE e) |}
    | (inr _, w) =>
        let predictions :=
          omap (fun eq_type => match predict eq_type w with
                               | (inr pred, _) => Some pred
                               | (inl _, _) => None
                               end) (unique_sorted types) in
        {| status_code := 200;
           body := RAllPredictions predictions
                     (option_map model_metrics_of (training_history w.1 !! "regression"))
                     (length predictions) |}
    end.

End Views.

(* ------------------------------------------------------------------ *)
(** ** [utils.process_csv_file] *)

(** Its cleaning, after [pd.read_csv] and [pd.to_numeric(errors='coerce')]
    (an unparsable cell is NaN): median imputation per column, then the
    z-score filter only [if len(df) > 5]. *)
Definition csv_clean (df : list row) : list row :=
  let df := fill_missing df in
  if Nat.ltb 5 (length df) then mask_select (z_mask df) df else df.

(** [df['Type'].value_counts().to_dict()] *)
Definition value_counts (types : list string) : gmap string nat :=
  foldr (fun t m => <[t := S (from_option id 0%nat (m !! t))]> m) ∅ types.

(** The count fields of [process_csv_file]'s result. *)
Record csv_summary := {
  csv_count : nat;
  csv_equipment_types_count : nat;
  csv_type_distribution : gmap string nat;
  csv_raw_data : list row
}.

Definition process_csv_file (df : list row) : csv_summary :=
  let df := csv_clean df in
  let type_distribution := value_counts (map Type_ df) in
  {| csv_count := length df;
     csv_equipment_types_count := size type_distribution;
     csv_type_distribution := type_distribution;
     csv_raw_data := df |}.

(* ================================================================== *)
(** * Proofs *)

(** Deciding the column predicates on a concrete frame. *)
Ltac solve_col_present :=
  vm_compute; repeat (apply Forall_cons; split; [eexists; reflexivity|]); apply Forall_nil; exact I.

Ltac solve_col_varies :=
  vm_compute; eexists _, _, _, _;
  split; [left; reflexivity|]; split; [right; left; reflexivity|];
  split; [reflexivity|]; split; [reflexivity|];
  let H := fresh in intro H; vm_compute in H; discriminate.

Ltac solve_col_constant :=
  let H1 := fresh in let H2 := fresh in let Ha := fresh in let Hb := fresh in
  intros ? ? ? ? H1 H2 Ha Hb; vm_compute in H1, H2;
  repeat destruct H1 as [<-|H1]; try destruct H1;
  repeat destruct H2 as [<-|H2]; try destruct H2;
  vm_compute in Ha, Hb; inversion Ha; inversion Hb; reflexivity.

(* ------------------------------------------------------------------ *)
(** ** Arithmetic on sums *)

Lemma Qltb_true (x y : Q) : Qltb x y = true <-> (x < y)%Q.
Proof.
  unfold Qltb. rewrite negb_true_iff. split.
  - intros H. apply Qnot_le_lt. intros Hle. apply Qle_bool_iff in Hle. congruence.
  - intros H. destruct (Qle_bool y x) eqn:E; [|reflexivity].
    apply Qle_bool_iff in E. exfalso. apply (Qlt_not_le x y); assumption.
Qed.

Lemma Q_of_nat_S (n : nat) : (Q_of_nat (S n) == Q_of_nat n + 1)%Q.
Proof. unfold Q_of_nat. rewrite Nat2Z.inj_succ. unfold Z.succ. rewrite inject_Z_plus. reflexivity. Qed.

Lemma Q_of_nat_0 : Q_of_nat 0 = 0%Q.
Proof. reflexivity. Qed.

Lemma Q_of_nat_nonneg (n : nat) : (0 <= Q_of_nat n)%Q.
Proof. unfold Q_of_nat. change 0%Q with (inject_Z 0). rewrite <- Zle_Qle. lia. Qed.

Lemma Q_of_nat_le (n m : nat) : (n <= m)%nat -> (Q_of_nat n <= Q_of_nat m)%Q.
Proof. intros H. unfold Q_of_nat. rewrite <- Zle_Qle. lia. Qed.

Lemma sumQ_app (l1 l2 : list Q) : (sumQ (l1 ++ l2) == sumQ l1 + sumQ l2)%Q.
Proof.
  induction l1 as [|a l1 IH]; simpl.
  - lra.
  - rewrite IH. lra.
Qed.

Lemma sq_nonneg (x : Q) : (0 <= x * x)%Q.
Proof. nra. Qed.

(** Taking one element out of a sum. *)
Lemma sumQ_map_split (f : Q -> Q) (l1 l2 : list Q) (x : Q) :
  (sumQ (map f (l1 ++ x :: l2)) == f x + sumQ (map f (l1 ++ l2)))%Q.
Proof.
  rewrite !map_app, !sumQ_app. simpl. lra.
Qed.

Lemma sumQ_squares_nonneg (c : Q) (l : list Q) :
  (0 <= sumQ (map (fun y => (y - c) * (y - c)) l))%Q.
Proof.
  induction l as [|a l IH]; simpl.
  - lra.
  - pose proof (sq_nonneg (a - c)). lra.
Qed.

Lemma sumQ_square_ge (c y : Q) (l : list Q) :
  In y l -> ((y - c) * (y - c) <= sumQ (map (fun y => (y - c) * (y - c)) l))%Q.
Proof.
  induction l as [|a l IH]; simpl; [tauto|].
  intros [<-|Hin].
  - pose proof (sumQ_squares_nonneg c l). lra.
  - specialize (IH Hin). pose proof (sq_nonneg (a - c)). lra.
Qed.

Lemma sumQ_deviations (c : Q) (l : list Q) :
  (sumQ (map (fun y => y - c) l) == sumQ l - Q_of_nat (length l) * c)%Q.
Proof.
  induction l as [|a l IH].
  - cbn [map sumQ length]. rewrite Q_of_nat_0. lra.
  - cbn [map sumQ length]. rewrite IH, Q_of_nat_S. lra.
Qed.

(** Cauchy-Schwarz for a sum: [(sum l)^2 <= length l * sum of squares]. *)
Lemma sum_square_le (l : list Q) :
  (sumQ l * sumQ l <= Q_of_nat (length l) * sumQ (map (fun y => y * y) l))%Q.
Proof.
  induction l as [|a l IH].
  - cbn [map sumQ length]. rewrite Q_of_nat_0. lra.
  - cbn [map sumQ length]. rewrite Q_of_nat_S.
    set (s := sumQ l) in *. set (q := sumQ (map (fun y : Q => (y * y)%Q) l)) in *.
    set (k := Q_of_nat (length l)) in *.
    assert (Hq : (0 <= q)%Q).
    { subst q. clear. induction l as [|b l IH]; simpl; [lra|].
      pose proof (sq_nonneg b). lra. }
    destruct l as [|b l'].
    + subst s q k. cbn [map sumQ length]. rewrite Q_of_nat_0. pose proof (sq_nonneg a). lra.
    + assert (Hk : (1 <= k)%Q).
      { subst k. cbn [length]. rewrite Q_of_nat_S. pose proof (Q_of_nat_nonneg (length l')). lra. }
      pose proof (sq_nonneg (k * a - s)) as Hsq.
      assert (Hkx : (0 <= k * (k * a * a - 2 * a * s + q))%Q) by nra.
      assert (Hx : (0 <= k * a * a - 2 * a * s + q)%Q) by nra.
      nra.
Qed.

(** A single deviation from the mean is bounded by the others:
    [n * (x - mean)^2 <= (n - 1) * sum (y - mean)^2]. *)
Lemma deviation_bound (l1 l2 : list Q) (x c : Q) :
  (sumQ (map (fun y => y - c) (l1 ++ x :: l2)) == 0)%Q ->
  (Q_of_nat (length (l1 ++ x :: l2)) * ((x - c) * (x - c)) <=
   (Q_of_nat (length (l1 ++ x :: l2)) - 1) *
     sumQ (map (fun y => (y - c) * (y - c)) (l1 ++ x :: l2)))%Q.
Proof.
  intros H0.
  rewrite (sumQ_map_split (fun y : Q => (y - c)%Q)) in H0.
  rewrite (sumQ_map_split (fun y : Q => ((y - c) * (y - c))%Q)).
  assert (Hlen : length (l1 ++ x :: l2) = S (length (l1 ++ l2))) by (rewrite !length_app; simpl; lia).
  rewrite Hlen, Q_of_nat_S.
  pose proof (sum_square_le (map (fun y : Q => (y - c)%Q) (l1 ++ l2))) as Hcs.
  rewrite map_map, length_map in Hcs.
  set (D := sumQ (map (fun y : Q => (y - c)%Q) (l1 ++ l2))) in *.
  set (Q2 := sumQ (map (fun y : Q => ((y - c) * (y - c))%Q) (l1 ++ l2))) in *.
  set (k := Q_of_nat (length (l1 ++ l2))) in *.
  assert (He : (x - c == - D)%Q) by lra.
  assert (Hee : ((x - c) * (x - c) == D * D)%Q) by (rewrite He; ring).
  nra.
Qed.

(* ------------------------------------------------------------------ *)
(** ** Columns and z-scores *)

Lemma all_present_map_Some (xs : list Q) : all_present (map Some xs) = Some xs.
Proof. induction xs as [|x xs IH]; simpl; [reflexivity|]. now rewrite IH. Qed.

Lemma all_present_Some (col : list (option Q)) (xs : list Q) :
  all_present col = Some xs -> col = map Some xs.
Proof.
  revert xs. induction col as [|[x|] col IH]; intros xs H; simpl in H.
  - now inversion H.
  - destruct (all_present col) as [ys|] eqn:E; [|discriminate].
    inversion H; subst. simpl. f_equal. now apply IH.
  - discriminate.
Qed.

Lemma col_present_map (c : numeric_col) (df : list row) :
  col_present c df -> all_present (map (get_col c) df) = Some (present (map (get_col c) df)).
Proof.
  unfold col_present. induction 1 as [|r df [v Hv] _ IH]; simpl; [reflexivity|].
  rewrite Hv. simpl. now rewrite IH.
Qed.

Lemma all_present_None (c : numeric_col) (df : list row) :
  ~ col_present c df -> all_present (map (get_col c) df) = None.
Proof.
  intros Hn. destruct (all_present (map (get_col c) df)) as [xs|] eqn:E; [|reflexivity].
  exfalso. apply Hn. apply all_present_Some in E. unfold col_present.
  apply List.Forall_forall. intros r Hr.
  assert (Hin : In (get_col c r) (map Some xs)) by (rewrite <- E; now apply in_map).
  apply in_map_iff in Hin as [x [Hx _]]. rewrite <- Hx. now eexists.
Qed.

Lemma in_present (col : list (option Q)) (a : Q) : In a (present col) <-> In (Some a) col.
Proof.
  induction col as [|[x|] col IH]; simpl; [tauto| |].
  - rewrite IH. split; intros [H|H]; auto; left; congruence.
  - rewrite IH. split; [auto|]. intros [H|H]; [discriminate|assumption].
Qed.

Lemma in_present_col (c : numeric_col) (df : list row) (a : Q) :
  In a (present (map (get_col c) df)) <-> exists r, In r df /\ get_col c r = Some a.
Proof.
  rewrite in_present, in_map_iff. split; intros [r [H1 H2]]; exists r; auto.
Qed.

Lemma minQ_in (x : Q) (l : list Q) : In (minQ x l) (x :: l).
Proof.
  revert x. induction l as [|y l IH]; intros x; simpl; [auto|].
  destruct (Qle_bool y x).
  - specialize (IH y). simpl in IH. tauto.
  - specialize (IH x). simpl in IH. tauto.
Qed.

Lemma length_zscore (col : list (option Q)) : length (zscore col) = length col.
Proof.
  unfold zscore. destruct (all_present col) as [xs|] eqn:E.
  - apply all_present_Some in E. subst col. rewrite length_map.
    destruct xs as [|x0 xs']; [reflexivity|]. cbv zeta.
    destruct (forallb _ _); now rewrite length_map.
  - now rewrite length_map.
Qed.

(** A missing cell makes every score of the column NaN. *)
Lemma zscore_missing (col : list (option Q)) (z : zval) :
  all_present col = None -> In z (zscore col) -> z = ZNaN.
Proof.
  unfold zscore. intros -> Hz. apply in_map_iff in Hz as [? [<- _]]. reflexivity.
Qed.

(** A constant column has NaN scores. *)
Lemma zscore_constant (xs : list Q) (z : zval) :
  (forall a b, In a xs -> In b xs -> (a == b)%Q) -> In z (zscore (map Some xs)) -> z = ZNaN.
Proof.
  intros Hc Hz. unfold zscore in Hz. rewrite all_present_map_Some in Hz.
  destruct xs as [|x0 xs']; [destruct Hz|]. cbv zeta in Hz.
  replace (forallb _ _) with true in Hz.
  - apply in_map_iff in Hz as [? [<- _]]. reflexivity.
  - symmetry. apply forallb_forall. intros x Hx. apply Qeq_bool_iff.
    apply Hc; [assumption|]. apply minQ_in.
Qed.

(** With at most nine values, not all equal, every score is below 3 in
    absolute value ([|z| <= sqrt (n - 1)]). *)
Lemma zscore_small_lt3 (xs : list Q) (z : zval) :
  (length xs <= 9)%nat ->
  (exists a b, In a xs /\ In b xs /\ ~ (a == b)%Q) ->
  In z (zscore (map Some xs)) -> abs_lt3 z = true.
Proof.
  intros Hlen [a [b [Ha [Hb Hab]]]] Hz.
  unfold zscore in Hz. rewrite all_present_map_Some in Hz.
  destruct xs as [|x0 xs'] eqn:Exs; [destruct Ha|]. rewrite <- Exs in *. cbv zeta in Hz.
  set (n := Q_of_nat (length xs)) in *.
  set (mn := (sumQ xs / n)%Q) in *.
  set (S := sumQ (map (fun x : Q => ((x - mn) * (x - mn))%Q) xs)) in *.
  destruct (forallb _ _) eqn:Hc.
  - exfalso. apply Hab. rewrite Exs in Ha, Hb.
    rewrite forallb_forall in Hc.
    pose proof (Qeq_bool_iff a (minQ x0 xs')) as [Ha' _].
    pose proof (Qeq_bool_iff b (minQ x0 xs')) as [Hb' _].
    rewrite Exs in Hc.
    specialize (Ha' (Hc a Ha)). specialize (Hb' (Hc b Hb)). rewrite Ha', Hb'. reflexivity.
  - apply in_map_iff in Hz as [x [<- Hx]]. simpl. apply Qltb_true.
    assert (Hn : (0 < n)%Q).
    { subst n. rewrite Exs. cbn [length]. rewrite Q_of_nat_S.
      pose proof (Q_of_nat_nonneg (length xs')). lra. }
    assert (Hn9 : (n <= 9)%Q) by (apply (Q_of_nat_le _ 9); assumption).
    assert (Hsum : (sumQ (map (fun y : Q => (y - mn)%Q) xs) == 0)%Q).
    { rewrite sumQ_deviations. fold n. subst mn.
      rewrite Qmult_div_r; [lra|]. intros H0. rewrite H0 in Hn. discriminate. }
    destruct (in_split x xs Hx) as [l1 [l2 Hsplit]].
    pose proof (deviation_bound l1 l2 x mn) as Hdev.
    rewrite <- Hsplit in Hdev. specialize (Hdev Hsum). fold n S in Hdev.
    assert (HS : (0 < S)%Q).
    { assert (Hy : exists y, In y xs /\ ~ (y == mn)%Q).
      { destruct (Qeq_dec a mn) as [Ham|Ham].
        - exists b. split; [assumption|]. intros Hbm. apply Hab. rewrite Ham, Hbm. reflexivity.
        - exists a. split; assumption. }
      destruct Hy as [y [Hy Hym]].
      pose proof (sumQ_square_ge mn y xs Hy) as Hge. fold S in Hge.
      assert (Hpos : (0 < (y - mn) * (y - mn))%Q).
      { destruct (Q_dec y mn) as [[Hlt|Hgt]|Heq]; [nra|nra|contradiction]. }
      lra. }
    assert (H9 : (9 * (S / n) == (9 * S) / n)%Q) by (unfold Qdiv; ring).
    rewrite H9.
    apply Qlt_shift_div_l; [assumption|].
    nra.
Qed.

Lemma zip3_and_length (a b c : list bool) (n : nat) :
  length a = n -> length b = n -> length c = n -> length (zip3_and a b c) = n.
Proof.
  revert b c n. induction a as [|x a IH]; intros [|y b] [|z c] n Ha Hb Hc; simpl in *;
    try lia. destruct n as [|n]; [lia|]. f_equal. apply IH; lia.
Qed.

Lemma in_zip3_and (a b c : list bool) (x : bool) :
  In x (zip3_and a b c) ->
  exists xa xb xc, In xa a /\ In xb b /\ In xc c /\ x = xa && xb && xc.
Proof.
  revert b c. induction a as [|xa a IH]; intros [|xb b] [|xc c] H; simpl in H; try tauto.
  destruct H as [<-|H].
  - exists xa, xb, xc. simpl. tauto.
  - destruct (IH b c H) as (ya & yb & yc & H1 & H2 & H3 & ->).
    exists ya, yb, yc. simpl. tauto.
Qed.

Lemma mask_select_all_true {A} (mask : list bool) (l : list A) :
  length mask = length l -> (forall b, In b mask -> b = true) -> mask_select mask l = l.
Proof.
  revert l. induction mask as [|b mask IH]; intros [|x l] Hlen Hall; simpl in *; try lia.
  - reflexivity.
  - rewrite (Hall b (or_introl eq_refl)). f_equal. apply IH; auto.
Qed.

Lemma mask_select_all_false {A} (mask : list bool) (l : list A) :
  (forall b, In b mask -> b = false) -> mask_select mask l = [].
Proof.
  revert l. induction mask as [|b mask IH]; intros [|x l] Hall; simpl in *; try reflexivity.
  rewrite (Hall b (or_introl eq_refl)). apply IH. auto.
Qed.

Lemma length_fill_col (c : numeric_col) (df : list row) : length (fill_col c df) = length df.
Proof. unfold fill_col. destruct (existsb _ _); [apply length_map|reflexivity]. Qed.

Lemma length_fill_missing (df : list row) : length (fill_missing df) = length df.
Proof. unfold fill_missing. simpl. now rewrite !length_fill_col. Qed.

Lemma fill_col_present (c : numeric_col) (df : list row) : col_present c df -> fill_col c df = df.
Proof.
  intros H. unfold fill_col.
  replace (existsb _ _) with false; [reflexivity|].
  symmetry. apply not_true_iff_false. intros Hex.
  apply existsb_exists in Hex as [o [Ho Hno]].
  apply in_map_iff in Ho as [r [<- Hr]].
  unfold col_present in H. rewrite List.Forall_forall in H.
  destruct (H r Hr) as [v Hv]. rewrite Hv in Hno. discriminate.
Qed.

(** [clean_data] keeps every row when every score is below 3. *)
Lemma clean_data_keep_all (df : list row) :
  (forall c z, In z (zcol c (fill_missing df)) -> abs_lt3 z = true) ->
  clean_data df = fill_missing df.
Proof.
  intros Hall. unfold clean_data. apply mask_select_all_true.
  - unfold z_mask, zcol. apply zip3_and_length; rewrite length_map, length_zscore, length_map; reflexivity.
  - intros b Hb. unfold z_mask in Hb. apply in_zip3_and in Hb as (xa & xb & xc & Ha & Hb & Hc & ->).
    apply in_map_iff in Ha as [za [<- Ha]]. apply in_map_iff in Hb as [zb [<- Hb]].
    apply in_map_iff in Hc as [zc [<- Hc]].
    rewrite (Hall _ _ Ha), (Hall _ _ Hb), (Hall _ _ Hc). reflexivity.
Qed.

(** [clean_data] drops every row when one column has only NaN scores. *)
Lemma clean_data_drop_all (df : list row) (c : numeric_col) :
  (forall z, In z (zcol c (fill_missing df)) -> z = ZNaN) -> clean_data df = [].
Proof.
  intros Hnan. unfold clean_data. apply mask_select_all_false.
  intros b Hb. unfold z_mask in Hb. apply in_zip3_and in Hb as (xa & xb & xc & Ha & Hb & Hc & ->).
  apply in_map_iff in Ha as [za [<- Ha]]. apply in_map_iff in Hb as [zb [<- Hb]].
  apply in_map_iff in Hc as [zc [<- Hc]].
  destruct c.
  - rewrite (Hnan _ Ha). reflexivity.
  - rewrite (Hnan _ Hb). now destruct (abs_lt3 za).
  - rewrite (Hnan _ Hc). now destruct (abs_lt3 za), (abs_lt3 zb).
Qed.

(** A column whose z-scores are undefined: a missing cell, or constant. *)
Lemma zcol_undefined (c : numeric_col) (df : list row) (z : zval) :
  (~ col_present c df \/ col_constant c df) -> In z (zcol c df) -> z = ZNaN.
Proof.
  unfold zcol. intros Hu Hz.
  destruct (all_present (map (get_col c) df)) as [xs|] eqn:E.
  - destruct Hu as [Hn|Hconst].
    + rewrite (all_present_None c df Hn) in E. discriminate.
    + pose proof (all_present_Some _ _ E) as Hmap. rewrite Hmap in Hz.
      apply (zscore_constant xs); [|assumption].
      intros a b Ha Hb.
      assert (Ha' : In (Some a) (map (get_col c) df)) by (rewrite Hmap; now apply in_map).
      assert (Hb' : In (Some b) (map (get_col c) df)) by (rewrite Hmap; now apply in_map).
      apply in_map_iff in Ha' as [r1 [H1 Hr1]]. apply in_map_iff in Hb' as [r2 [H2 Hr2]].
      exact (Hconst r1 r2 a b Hr1 Hr2 H1 H2).
  - exact (zscore_missing _ z E Hz).
Qed.

(** A small column that varies has all scores below 3. *)
Lemma zcol_small_lt3 (c : numeric_col) (df : list row) (z : zval) :
  (length df <= 9)%nat -> col_present c df -> col_varies c df ->
  In z (zcol c df) -> abs_lt3 z = true.
Proof.
  intros Hlen Hp [r1 [r2 [a [b [Hr1 [Hr2 [Ha [Hb Hab]]]]]]]] Hz.
  unfold zcol in Hz.
  pose proof (col_present_map c df Hp) as E.
  rewrite (all_present_Some _ _ E) in Hz.
  apply (zscore_small_lt3 (present (map (get_col c) df))); [| |assumption].
  - pose proof (f_equal (@length _) (all_present_Some _ _ E)) as HL.
    rewrite !length_map in HL. lia.
  - exists a, b. rewrite !in_present_col. split; [eauto|]. split; [eauto|]. assumption.
Qed.

(* ------------------------------------------------------------------ *)
(** ** C1: no row-count guard in [clean_data] *)

(** Claim C1, as stated: with at most 5 rows, [clean_data] skips the
    z-score filter and returns every (imputed) row.  False: three rows
    with one constant column lose every row, while the cleaning of
    [utils.process_csv_file] ([csv_clean]), which has the [len(df) > 5]
    guard, keeps all three. *)
Lemma C1_small_sample_not_skipped :
  (length (fill_missing sample_const3) <= 5)%nat /\
  fill_missing sample_const3 <> [] /\ clean_data sample_const3 = [] /\
  csv_clean sample_const3 = fill_missing sample_const3.
Proof.
  split; [vm_compute; lia|]. split; [vm_compute; discriminate|].
  split; vm_compute; reflexivity.
Qed.

(** Claim C1 (amended): [clean_data] applies the z-score filter at every
    row count.  With at most 5 rows, when every numeric column is present
    and not constant after imputation, no row is dropped; and whenever one
    numeric column has a missing value or is constant after imputation,
    every row is dropped. *)
Theorem C1_clean_data_small_samples (df : list row) :
  ((length df <= 5)%nat ->
   (forall c, col_present c (fill_missing df) /\ col_varies c (fill_missing df)) ->
   clean_data df = fill_missing df) /\
  (forall c, ~ col_present c (fill_missing df) \/ col_constant c (fill_missing df) ->
   clean_data df = []).
Proof.
  split.
  - intros Hlen Hcols. apply clean_data_keep_all. intros c z Hz.
    destruct (Hcols c) as [Hp Hv].
    apply (zcol_small_lt3 c (fill_missing df)); try assumption.
    rewrite length_fill_missing. lia.
  - intros c Hu. apply (clean_data_drop_all df c). intros z Hz.
    exact (zcol_undefined c _ z Hu Hz).
Qed.

Lemma C1_clean_data_small_samples_witness :
  clean_data sample_small3 = fill_missing sample_small3 /\ clean_data sample_const3 = [].
Proof.
  split.
  - apply (proj1 (C1_clean_data_small_samples sample_small3)); [vm_compute; lia|].
    intros c. destruct c; split; [solve_col_present|solve_col_varies|solve_col_present
      |solve_col_varies|solve_col_present|solve_col_varies].
  - apply (proj2 (C1_clean_data_small_samples sample_const3) Pressure_c).
    right. solve_col_constant.
Defined.

(* ------------------------------------------------------------------ *)
(** ** C8: [clean_data] leaves an outlier-free complete frame unchanged *)

(** Claim C8, as stated: a frame with no missing value and no score of
    absolute value above 3 comes back unchanged.  False: the filter keeps
    rows with [|z| < 3], so a row at exactly [|z| = 3] is dropped
    ([sample_z3], 10 rows in, 9 out). *)
Lemma C8_boundary_row_dropped :
  (forall c, col_present c sample_z3) /\
  (forall c z, In z (zcol c sample_z3) -> abs_gt3 z = false) /\
  length sample_z3 = 10%nat /\ length (clean_data sample_z3) = 9%nat.
Proof.
  split; [intros []; solve_col_present|]. split.
  - intros [] z Hz; vm_compute in Hz;
      repeat (destruct Hz as [<-|Hz]; [reflexivity|]); destruct Hz.
  - split; vm_compute; reflexivity.
Qed.

(** Claim C8 (amended): a frame with no missing numeric value whose
    every z-score is defined and strictly below 3 in absolute value comes
    back from [clean_data] unchanged, same rows in the same order. *)
Theorem C8_clean_data_identity (df : list row) :
  (forall c, col_present c df) ->
  (forall c z, In z (zcol c df) -> abs_lt3 z = true) ->
  clean_data df = df.
Proof.
  intros Hp Hz.
  assert (Hf : fill_missing df = df).
  { unfold fill_missing. simpl.
    rewrite (fill_col_present Flowrate_c df (Hp Flowrate_c)).
    rewrite (fill_col_present Pressure_c df (Hp Pressure_c)).
    rewrite (fill_col_present Temperature_c df (Hp Temperature_c)).
    reflexivity. }
  rewrite <- Hf at 2. apply clean_data_keep_all. rewrite Hf. exact Hz.
Qed.

Lemma C8_clean_data_identity_witness : clean_data sample10 = sample10.
Proof.
  apply C8_clean_data_identity.
  - intros []; solve_col_present.
  - intros [] z Hz; vm_compute in Hz;
      repeat (destruct Hz as [<-|Hz]; [reflexivity|]); destruct Hz.
Defined.

(* ------------------------------------------------------------------ *)
(** ** C2: the selection loop keeps the first best candidate *)

Section SelectionProofs.
Context `{E : Estimators}.

Lemma py_gt_fin_trans (q s : Q) (best : pyfloat) :
  py_gt (PFin q) best = true -> py_gt (PFin s) best = false -> (s < q)%Q.
Proof.
  destruct best as [b| |]; simpl; try discriminate.
  intros H1 H2. apply Qltb_true in H1. unfold Qltb in H2.
  destruct (Qle_bool s b) eqn:Eb; [|discriminate].
  apply Qle_bool_iff in Eb. lra.
Qed.

Lemma py_gt_fin_lt (q s : Q) (best : pyfloat) :
  py_gt (PFin s) best = true -> py_gt (PFin q) (PFin s) = true -> py_gt (PFin q) best = true.
Proof.
  destruct best as [b| |]; simpl; try discriminate; [|reflexivity].
  intros H1 H2. apply Qltb_true in H1, H2. unfold Qltb.
  destruct (Qle_bool q b) eqn:Eb; [|reflexivity]. apply Qle_bool_iff in Eb. lra.
Qed.

Lemma py_gt_fin_false (q s : Q) : py_gt (PFin q) (PFin s) = false -> (q <= s)%Q.
Proof.
  simpl. unfold Qltb. destruct (Qle_bool q s) eqn:Eb; [|discriminate].
  intros _. apply Qle_bool_iff in Eb. exact Eb.
Qed.

Lemma select_best_cases (scored : list (fitted_reg * pyfloat)) :
  all_finite scored ->
  forall best kept,
  (select_best best kept scored = kept /\
   forall x q', In (x, PFin q') scored -> py_gt (PFin q') best = false) \/
  (exists pre q post fm, scored = pre ++ (fm, PFin q) :: post /\
     select_best best kept scored = Some fm /\ py_gt (PFin q) best = true /\
     (forall x q', In (x, PFin q') scored -> (q' <= q)%Q) /\
     (forall x q', In (x, PFin q') pre -> (q' < q)%Q)).
Proof.
  induction scored as [|[m sc] rest IH]; intros Hfin best kept.
  - left. split; [reflexivity|]. intros ? ? [].
  - destruct (Hfin m sc (or_introl eq_refl)) as [s ->].
    assert (Hr : all_finite rest) by (intros x sc' H; exact (Hfin x sc' (or_intror H))).
    cbn [select_best]. destruct (py_gt (PFin s) best) eqn:Eg.
    + destruct (IH Hr (PFin s) (Some m)) as [[Ek Hall]|(pre & q & post & fm & Es & Ek & Hq & Hle & Hlt)].
      * right. exists [], s, rest, m. split; [reflexivity|]. split; [exact Ek|]. split; [exact Eg|].
        split; [|intros ? ? []].
        intros x q' [Heq|Hin]; [inversion Heq; subst; lra|]. exact (py_gt_fin_false _ _ (Hall x q' Hin)).
      * right. pose proof Hq as Hsq. cbn [py_gt] in Hsq. apply Qltb_true in Hsq.
        exists ((m, PFin s) :: pre), q, post, fm. split; [rewrite Es; reflexivity|].
        split; [exact Ek|]. split; [exact (py_gt_fin_lt q s best Eg Hq)|]. split.
        -- intros x q' [Heq|Hin]; [inversion Heq; subst; lra|]. exact (Hle x q' Hin).
        -- intros x q' [Heq|Hin]; [inversion Heq; subst; lra|]. exact (Hlt x q' Hin).
    + destruct (IH Hr best kept) as [[Ek Hall]|(pre & q & post & fm & Es & Ek & Hq & Hle & Hlt)].
      * left. split; [exact Ek|]. intros x q' [Heq|Hin]; [inversion Heq; subst; exact Eg|].
        exact (Hall x q' Hin).
      * right. pose proof (py_gt_fin_trans q s best Hq Eg) as Hsq.
        exists ((m, PFin s) :: pre), q, post, fm. split; [rewrite Es; reflexivity|].
        split; [exact Ek|]. split; [exact Hq|]. split.
        -- intros x q' [Heq|Hin]; [inversion Heq; subst; lra|]. exact (Hle x q' Hin).
        -- intros x q' [Heq|Hin]; [inversion Heq; subst; lra|]. exact (Hlt x q' Hin).
Qed.

Lemma select_best_all_nan (scored : list (fitted_reg * pyfloat)) best kept :
  (forall x sc, In (x, sc) scored -> sc = PNaN) -> select_best best kept scored = kept.
Proof.
  revert best kept. induction scored as [|[m sc] rest IH]; intros best kept H; [reflexivity|].
  simpl. rewrite (H m sc (or_introl eq_refl)). simpl.
  apply IH. intros x sc' Hin. exact (H x sc' (or_intror Hin)).
Qed.

Lemma r2_score_nan_iff (y_true y_pred : list Q) :
  r2_score y_true y_pred = PNaN <-> (length y_pred < 2)%nat.
Proof.
  unfold r2_score. destruct (Nat.ltb_spec (length y_pred) 2) as [H|H].
  - split; [intros _; exact H|reflexivity].
  - split; [|lia]. destruct (Qeq_bool _ 0); [discriminate|].
    destruct (Qeq_bool _ 0); discriminate.
Qed.

Lemma r2_score_finite (y_true y_pred : list Q) :
  (2 <= length y_pred)%nat -> exists q, r2_score y_true y_pred = PFin q.
Proof.
  intros H. unfold r2_score. destruct (Nat.ltb_spec (length y_pred) 2) as [H'|_]; [lia|].
  destruct (Qeq_bool _ 0); [eexists; reflexivity|].
  destruct (Qeq_bool _ 0); eexists; reflexivity.
Qed.

Lemma candidate_scores_shape X_train y_train X_test y_test :
  let scored := map (candidate_score X_train y_train X_test y_test) models_to_test in
  ((length X_test < 2)%nat /\ forall x sc, In (x, sc) scored -> sc = PNaN) \/
  ((2 <= length X_test)%nat /\ all_finite scored).
Proof.
  intros scored. destruct (Nat.lt_ge_cases (length X_test) 2) as [H|H].
  - left. split; [exact H|]. intros x sc Hin. subst scored.
    apply in_map_iff in Hin as (c & Heq & _). unfold candidate_score in Heq.
    inversion Heq. apply r2_score_nan_iff. rewrite length_map. exact H.
  - right. split; [exact H|]. intros x sc Hin. subst scored.
    apply in_map_iff in Hin as (c & Heq & _). unfold candidate_score in Heq.
    inversion Heq. apply r2_score_finite. rewrite length_map. exact H.
Qed.

(** Claim C2: one selection loop of [train_regression_models] (the same
    code for each of the three targets), started as on a fresh
    [EquipmentMLModel] with no model for the target, retains a candidate
    [fm] only if every candidate's test-split R² is a number, [fm]'s R² [q]
    is at least every candidate's R², and every candidate before it in
    [models_to_test] scores strictly less (ties keep the earlier one). *)
Theorem C2_select_target_keeps_best
    (get : ml_state -> option fitted_reg) (set : option fitted_reg -> ml_state -> ml_state)
    (Hgs : forall v s, get (set v s) = v)
    X_train y_train X_test y_test (s0 s1 : ml_state) tr0 tr1 res fm :
  get s0 = None ->
  select_target get set X_train y_train X_test y_test (s0, tr0) = (res, (s1, tr1)) ->
  get s1 = Some fm ->
  let scored := map (candidate_score X_train y_train X_test y_test) models_to_test in
  exists pre q post,
    scored = pre ++ (fm, PFin q) :: post /\
    (forall x sc, In (x, sc) scored -> exists q', sc = PFin q' /\ (q' <= q)%Q) /\
    (forall x sc, In (x, sc) pre -> exists q', sc = PFin q' /\ (q' < q)%Q).
Proof.
  intros H0 Hrun H1 scored.
  assert (Hs1 : s1 = set (select_best PNegInf (get s0) scored) s0).
  { unfold select_target, bind, log_fits, get_self, modify_self in Hrun. cbn [fst snd] in Hrun.
    injection Hrun as _ <- _. reflexivity. }
  subst s1. rewrite Hgs, H0 in H1. clear Hrun.
  destruct (candidate_scores_shape X_train y_train X_test y_test) as [[_ Hnan]|[_ Hfin]].
  - rewrite select_best_all_nan in H1 by exact Hnan. discriminate.
  - destruct (select_best_cases scored Hfin PNegInf None)
      as [[Ek Hall]|(pre & q & post & fm' & Es & Ek & _ & Hle & Hlt)].
    + rewrite Ek in H1. discriminate.
    + rewrite Ek in H1. inversion H1; subst fm'. exists pre, q, post. split; [exact Es|].
      split.
      * intros x sc Hin. destruct (Hfin x sc Hin) as [q' ->]. exists q'.
        split; [reflexivity|exact (Hle x q' Hin)].
      * intros x sc Hin. assert (Hin' : In (x, sc) scored) by (rewrite Es; apply in_or_app; left; exact Hin).
        destruct (Hfin x sc Hin') as [q' ->]. exists q'.
        split; [reflexivity|exact (Hlt x q' Hin)].
Qed.

End SelectionProofs.

Lemma C2_select_target_keeps_best_witness :
  let run := @select_target demo_estimators model_flowrate set_model_flowrate
               [[0];[1]]%Q [1;3]%Q [[0];[1];[2]]%Q [2;2;3]%Q (init_state, []) in
  let scored := map (@candidate_score demo_estimators [[0];[1]]%Q [1;3]%Q [[0];[1];[2]]%Q [2;2;3]%Q)
                  models_to_test in
  model_flowrate (run.2.1) = Some (RandomForest, mean_Q [1;3]%Q) /\
  exists pre q post,
    scored = pre ++ ((RandomForest, mean_Q [1;3]%Q), PFin q) :: post /\
    (forall x sc, In (x, sc) scored -> exists q', sc = PFin q' /\ (q' <= q)%Q) /\
    (forall x sc, In (x, sc) pre -> exists q', sc = PFin q' /\ (q' < q)%Q).
Proof.
  intros run scored. split; [reflexivity|].
  exact (C2_select_target_keeps_best (E := demo_estimators) model_flowrate set_model_flowrate
           (fun v s => eq_refl) [[0];[1]]%Q [1;3]%Q [[0];[1];[2]]%Q [2;2;3]%Q
           init_state run.2.1 [] run.2.2 run.1 (RandomForest, mean_Q [1;3]%Q)
           eq_refl eq_refl eq_refl).
Defined.

(* ------------------------------------------------------------------ *)
(** ** C4: nothing is fit when cleaning leaves no row *)

Section EmptyData.
Context `{E : Estimators} `{RNG : SplitRNG}.

Lemma train_regression_models_empty (df : list row) (s : ml_state) (tr : list fit_event) :
  clean_data df = [] ->
  exists s', train_regression_models df (s, tr) =
    (inl (ValueError "the resulting train set will be empty. Adjust any of the aforementioned parameters."),
     (s', tr)).
Proof.
  intros H. unfold train_regression_models, prepare_data. rewrite H.
  eexists. reflexivity.
Qed.

(** Claim C4: when the outlier filter of [clean_data] leaves no row,
    [train] fails with the split's insufficient-data error ("the resulting
    train set will be empty") and the trace of estimator fits is unchanged:
    no scaler, regressor or classifier is fit. *)
Theorem C4_train_no_rows_no_fit (df : list row) (s : ml_state) (tr : list fit_event) :
  clean_data df = [] ->
  exists s', train df (s, tr) =
    (inl (ValueError "the resulting train set will be empty. Adjust any of the aforementioned parameters."),
     (s', tr)).
Proof.
  intros H. destruct (train_regression_models_empty df s tr H) as [s' Hr].
  exists s'. unfold train, bind at 1. rewrite Hr. reflexivity.
Qed.

End EmptyData.

Lemma C4_train_no_rows_no_fit_witness :
  clean_data sample_const3 = [] /\
  exists s', @train demo_estimators demo_rng sample_const3 (init_state, []) =
    (inl (ValueError "the resulting train set will be empty. Adjust any of the aforementioned parameters."),
     (s', [])).
Proof.
  assert (H : clean_data sample_const3 = []) by (vm_compute; reflexivity).
  split; [exact H|].
  exact (C4_train_no_rows_no_fit (E := demo_estimators) (RNG := demo_rng) sample_const3 init_state [] H).
Defined.

(* ------------------------------------------------------------------ *)
(** ** C7: recorded split sizes *)

Lemma bind_inr {A B} `{E : Estimators} (m : M A) (k : A -> M B) w b w'' :
  bind m k w = (inr b, w'') -> exists a w', m w = (inr a, w') /\ k a w' = (inr b, w'').
Proof.
  unfold bind. destruct (m w) as [[e|a] w'] eqn:Em; [discriminate|].
  intros H. exists a, w'. split; [reflexivity|exact H].
Qed.

Lemma take_indices_length {A} (l : list A) (idx : list nat) :
  Forall (fun i => (i < length l)%nat) idx -> length (take_indices l idx) = length idx.
Proof.
  unfold take_indices. induction 1 as [|i idx Hi _ IH]; [reflexivity|].
  destruct (lookup_lt_is_Some_2 l i Hi) as [x Hx].
  change (omap (fun i => l !! i) (i :: idx)) with
    (match l !! i with Some y => y :: omap (fun i => l !! i) idx | None => omap (fun i => l !! i) idx end).
  rewrite Hx. simpl. rewrite IH. reflexivity.
Qed.

Lemma in_firstn_in {A} (k : nat) (l : list A) x : In x (firstn k l) -> In x l.
Proof. intros H. rewrite <- (firstn_skipn k l). apply in_or_app. left. exact H. Qed.

Lemma in_skipn_in {A} (k : nat) (l : list A) x : In x (skipn k l) -> In x l.
Proof. intros H. rewrite <- (firstn_skipn k l). apply in_or_app. right. exact H. Qed.

Section SplitSizes.
Context `{RNG : SplitRNG}.

Lemma permutation_bounds (n : nat) : Forall (fun i => (i < n)%nat) (permutation n).
Proof.
  apply List.Forall_forall. intros i Hi.
  apply (Permutation_in _ (permutation_ok n)) in Hi. apply in_seq in Hi. lia.
Qed.

Lemma length_permutation (n : nat) : length (permutation n) = n.
Proof. rewrite (Permutation_length (permutation_ok n)). apply length_seq. Qed.

Lemma shuffle_split_sizes (n : nat) (train test : list nat) :
  shuffle_split n = inr (train, test) ->
  length test = ((n + 4) / 5)%nat /\ length train = (n - (n + 4) / 5)%nat /\
  (n - (n + 4) / 5 <> 0)%nat /\
  Forall (fun i => (i < n)%nat) train /\ Forall (fun i => (i < n)%nat) test.
Proof.
  unfold shuffle_split, validate_shuffle_split.
  set (t := Nat.div (n + 4) 5).
  destruct (Nat.eqb_spec (n - t) 0) as [H0|H0]; [discriminate|].
  intros H. injection H as <- <-.
  pose proof (length_permutation n) as Hl. pose proof (permutation_bounds n) as Hb.
  assert (Hle : (t <= n)%nat).
  { unfold t. destruct n as [|n']; [simpl in H0; lia|]. apply Nat.Div0.div_le_upper_bound. lia. }
  rewrite !length_firstn, length_skipn, Hl.
  split; [lia|]. split; [lia|]. split; [exact H0|].
  rewrite List.Forall_forall in Hb. split; rewrite List.Forall_forall.
  - intros i Hi. apply Hb. apply in_skipn_in with (k := t).
    apply in_firstn_in with (k := (n - t)%nat). exact Hi.
  - intros i Hi. apply Hb. apply in_firstn_in with (k := t). exact Hi.
Qed.

Lemma train_test_split_sizes {A B} (X : list A) (y : list B) X_train X_test y_train y_test :
  train_test_split X y None = inr (X_train, X_test, y_train, y_test) ->
  length X_test = ((length X + 4) / 5)%nat /\
  length X_train = (length X - (length X + 4) / 5)%nat /\
  (2 <= length X)%nat.
Proof.
  unfold train_test_split. destruct (shuffle_split (length X)) as [e|[train test]] eqn:Hs;
    [discriminate|].
  intros H. injection H as <- <- _ _.
  destruct (shuffle_split_sizes _ _ _ Hs) as (Hte & Htr & H0 & Hbtr & Hbte).
  rewrite !take_indices_length by assumption. split; [exact Hte|]. split; [exact Htr|].
  destruct (length X) as [|[|n]]; simpl in H0; lia.
Qed.

End SplitSizes.

Lemma Qfloor_div5 (z : Z) : Qfloor (inject_Z z / 5) = (z / 5)%Z.
Proof. unfold Qfloor, inject_Z, Qdiv, Qmult, Qinv. simpl. rewrite Z.mul_1_r. reflexivity. Qed.

Lemma Qltb_false (x y : Q) : Qltb x y = false <-> (y <= x)%Q.
Proof.
  unfold Qltb. rewrite negb_false_iff. apply Qle_bool_iff.
Qed.

(** Python's [round(n / 5)] for a natural number [n]: no tie can occur. *)
Lemma round_fifth (z : Z) : round_half_even (inject_Z z / 5) = ((z + 2) / 5)%Z.
Proof.
  unfold round_half_even. rewrite Qfloor_div5.
  pose proof (Z.div_mod z 5 ltac:(lia)) as Hz. pose proof (Z.mod_pos_bound z 5 ltac:(lia)) as Hm.
  set (k := (z / 5)%Z) in *. set (m := (z mod 5)%Z) in *.
  assert (Hd : (5 * (inject_Z z / 5 - inject_Z k) == inject_Z m)%Q).
  { rewrite Hz at 1. rewrite inject_Z_plus, inject_Z_mult. field. }
  set (d := (inject_Z z / 5 - inject_Z k)%Q) in *.
  clearbody d k m.
  assert (Hcases : m = 0%Z \/ m = 1%Z \/ m = 2%Z \/ m = 3%Z \/ m = 4%Z) by lia.
  destruct (Qltb d (1 # 2)) eqn:E1;
    [apply Qltb_true in E1|apply Qltb_false in E1];
  [|destruct (Qltb (1 # 2) d) eqn:E2;
    [apply Qltb_true in E2|apply Qltb_false in E2]];
  destruct Hcases as [Hc|[Hc|[Hc|[Hc|Hc]]]]; rewrite Hc in Hd; unfold inject_Z in Hd;
    try lra; Z.to_euclidean_division_equations; lia.
Qed.

Section RegressionSizes.
Context `{E : Estimators} `{RNG : SplitRNG}.

Lemma prepare_data_run (df : list row) w :
  exists w', prepare_data df w =
    (inr (map (fun z => [inject_Z z]) (le_fit_transform (map Type_ (clean_data df))).2,
          col_values Flowrate_c (clean_data df), col_values Pressure_c (clean_data df),
          col_values Temperature_c (clean_data df)), w').
Proof.
  unfold prepare_data. destruct (le_fit_transform (map Type_ (clean_data df))) as [cls codes].
  eexists. reflexivity.
Qed.

Lemma length_le_fit_transform (ys : list string) : length (le_fit_transform ys).2 = length ys.
Proof. unfold le_fit_transform. simpl. apply length_map. Qed.

Lemma lift_inr {A} (r : exn + A) w a w' : @lift E A r w = (inr a, w') -> r = inr a /\ w' = w.
Proof. unfold lift. intros H. injection H as -> ->. split; reflexivity. Qed.

(** What a successful [train_regression_models] records as sizes. *)
Lemma train_regression_models_sizes (df : list row) w r w' :
  train_regression_models df w = (inr r, w') ->
  exists (X X_train X_test : list (list Q)) (y_train y_test : list Q),
    length X = length (clean_data df) /\
    train_test_split X (col_values Flowrate_c (clean_data df)) None =
      inr (X_train, X_test, y_train, y_test) /\
    training_samples r = length X_train /\ test_samples r = length X_test /\
    total_samples r = length X.
Proof.
  unfold train_regression_models. intros H.
  apply bind_inr in H as ([[[X yf] yp] yt] & w1 & Hp & H).
  destruct (prepare_data_run df w) as [w1' Hp']. rewrite Hp' in Hp.
  injection Hp as HX Hyf _ _ _. cbv beta iota in H.
  apply bind_inr in H as ([[[X_train X_test] y_train] y_test] & w2 & S1 & H).
  apply lift_inr in S1 as [S1 _]. cbv beta iota in H.
  apply bind_inr in H as ([[[? ?] ?] ?] & w3 & _ & H). cbv beta iota in H.
  apply bind_inr in H as ([[[? ?] ?] ?] & w4 & _ & H). cbv beta iota in H.
  apply bind_inr in H as ([] & w5 & _ & H).
  apply bind_inr in H as ([] & w6 & _ & H).
  apply bind_inr in H as ([] & w7 & _ & H).
  apply bind_inr in H as ([] & w8 & _ & H).
  apply bind_inr in H as ([] & w9 & _ & H).
  apply bind_inr in H as (s & w10 & _ & H).
  destruct (model_flowrate s) as [[? mf]|]; [|discriminate].
  destruct (model_pressure s) as [[? mp]|]; [|discriminate].
  destruct (model_temperature s) as [[? mt]|]; [|discriminate].
  apply bind_inr in H as ([] & w11 & _ & H). injection H as <- _.
  exists X, X_train, X_test, y_train, y_test.
  split.
  { rewrite <- HX, length_map.
    pose proof (length_le_fit_transform (map Type_ (clean_data df))) as L.
    rewrite length_map in L. exact L. }
  split; [rewrite Hyf; exact S1|].
  split; [reflexivity|]. split; reflexivity.
Qed.

(** Claim C7: when [train_regression_models] succeeds on a frame whose
    cleaned size is [N], the recorded sizes satisfy
    [training_samples + test_samples = N = total_samples], [N >= 2], and
    [test_samples = ceil(N / 5)], which is [round(0.2 * N)] or one more. *)
Theorem C7_regression_split_sizes (df : list row) w r w' :
  train_regression_models df w = (inr r, w') ->
  let N := length (clean_data df) in
  (2 <= N)%nat /\
  (training_samples r + test_samples r = N)%nat /\ total_samples r = N /\
  test_samples r = ((N + 4) / 5)%nat /\
  (round_half_even (Q_of_nat N / 5) <= Z.of_nat (test_samples r) <=
   round_half_even (Q_of_nat N / 5) + 1)%Z.
Proof.
  intros H N.
  destruct (train_regression_models_sizes df w r w' H)
    as (X & X_train & X_test & y_train & y_test & HX & Hs & Htr & Hte & Htot).
  destruct (train_test_split_sizes X _ X_train X_test y_train y_test Hs) as (Hlte & Hltr & H2).
  fold N in HX. rewrite HX in Hlte, Hltr, H2.
  rewrite Htr, Hte, Htot, Hlte, Hltr, HX. unfold Q_of_nat. rewrite round_fifth.
  split; [exact H2|]. split.
  - assert (((N + 4) / 5 <= N)%nat) by (apply Nat.Div0.div_le_upper_bound; lia). lia.
  - split; [reflexivity|]. split; [reflexivity|].
    rewrite Nat2Z.inj_div, Nat2Z.inj_add. simpl (Z.of_nat 4). simpl (Z.of_nat 5).
    Z.to_euclidean_division_equations. lia.
Qed.

End RegressionSizes.

Lemma C7_regression_split_sizes_witness :
  exists r w', @train_regression_models demo_estimators demo_rng sample10 (init_state, []) = (inr r, w') /\
  let N := length (clean_data sample10) in
  (2 <= N)%nat /\
  (training_samples r + test_samples r = N)%nat /\ total_samples r = N /\
  test_samples r = ((N + 4) / 5)%nat /\
  (round_half_even (Q_of_nat N / 5) <= Z.of_nat (test_samples r) <=
   round_half_even (Q_of_nat N / 5) + 1)%Z.
Proof.
  destruct (@train_regression_models demo_estimators demo_rng sample10 (init_state, []))
    as [[e|r] w'] eqn:H.
  - vm_compute in H. discriminate.
  - exists r, w'. split; [reflexivity|].
    exact (C7_regression_split_sizes (E := demo_estimators) (RNG := demo_rng) sample10 _ r w' H).
Defined.

(* ------------------------------------------------------------------ *)
(** ** C3: [predict] on a label unseen in training *)

Section TrainedState.
Context `{E : Estimators} `{RNG : SplitRNG}.

Lemma modify_self_inr (f : ml_state -> ml_state) w u w' :
  modify_self f w = (inr u, w') -> w' = (f w.1, w.2).
Proof. unfold modify_self. intros H. injection H as _ <-. reflexivity. Qed.

Lemma log_fit_inr ev w u w' : log_fit ev w = (inr u, w') -> w'.1 = w.1.
Proof. unfold log_fit. intros H. injection H as _ <-. reflexivity. Qed.

Lemma get_self_inr w s w' : get_self w = (inr s, w') -> s = w.1 /\ w' = w.
Proof. unfold get_self. intros H. injection H as <- <-. split; reflexivity. Qed.

Lemma ret_inr {A} (a b : A) w w' : ret a w = (inr b, w') -> b = a /\ w' = w.
Proof. unfold ret. intros H. injection H as <- <-. split; reflexivity. Qed.

Lemma select_target_inr get set X_train y_train X_test y_test w u w' :
  select_target get set X_train y_train X_test y_test w = (inr u, w') ->
  exists v, w'.1 = set v w.1.
Proof.
  unfold select_target. intros H.
  apply bind_inr in H as (? & w1 & H1 & H). unfold log_fits in H1. injection H1 as _ <-.
  apply bind_inr in H as (s & w2 & H2 & H). apply get_self_inr in H2 as [-> ->].
  apply modify_self_inr in H. subst w'. eexists. reflexivity.
Qed.

Lemma train_regression_models_state (df : list row) w r w' :
  train_regression_models df w = (inr r, w') ->
  is_Some (scaler_regression w'.1) /\ is_Some (model_flowrate w'.1) /\
  is_Some (model_pressure w'.1) /\ is_Some (model_temperature w'.1).
Proof.
  unfold train_regression_models. intros H.
  apply bind_inr in H as ([[[X yf] yp] yt] & w1 & _ & H). cbv beta iota in H.
  apply bind_inr in H as ([[[X_train X_test] ? ] ?] & w2 & _ & H). cbv beta iota in H.
  apply bind_inr in H as ([[[? ?] ?] ?] & w3 & _ & H). cbv beta iota in H.
  apply bind_inr in H as ([[[? ?] ?] ?] & w4 & _ & H). cbv beta iota in H.
  apply bind_inr in H as ([] & w5 & H5 & H). apply log_fit_inr in H5.
  apply bind_inr in H as ([] & w6 & H6 & H). apply modify_self_inr in H6.
  apply bind_inr in H as ([] & w7 & H7 & H). apply select_target_inr in H7 as [v7 H7].
  apply bind_inr in H as ([] & w8 & H8 & H). apply select_target_inr in H8 as [v8 H8].
  apply bind_inr in H as ([] & w9 & H9 & H). apply select_target_inr in H9 as [v9 H9].
  apply bind_inr in H as (s & w10 & H10 & H). apply get_self_inr in H10 as [Hs ->].
  destruct (model_flowrate s) as [[? mf]|] eqn:Ef; [|discriminate].
  destruct (model_pressure s) as [[? mp]|] eqn:Ep; [|discriminate].
  destruct (model_temperature s) as [[? mt]|] eqn:Et; [|discriminate].
  apply bind_inr in H as ([] & w11 & H11 & H). apply modify_self_inr in H11.
  apply ret_inr in H as [_ Hw]. rewrite Hw, H11. simpl. rewrite <- Hs, Ef, Ep, Et.
  split; [|split; [eexists; reflexivity|split; eexists; reflexivity]].
  rewrite Hs, H9, H8, H7, H6. simpl. eexists. reflexivity.
Qed.

Lemma train_classification_model_state (df : list row) w c w' :
  train_classification_model df w = (inr c, w') ->
  label_encoder w'.1 = Some (unique_sorted (map Type_ (clean_data df))) /\
  scaler_regression w'.1 = scaler_regression w.1 /\
  model_flowrate w'.1 = model_flowrate w.1 /\ model_pressure w'.1 = model_pressure w.1 /\
  model_temperature w'.1 = model_temperature w.1.
Proof.
  unfold train_classification_model. intros H.
  destruct (le_fit_transform (map Type_ (clean_data df))) as [cls y] eqn:Hle.
  apply bind_inr in H as ([] & w1 & H1 & H). apply modify_self_inr in H1.
  apply bind_inr in H as ([[[? ?] ?] ?] & w2 & H2 & H). apply lift_inr in H2 as [_ ->].
  cbv beta iota in H.
  apply bind_inr in H as ([] & w3 & H3 & H). apply log_fit_inr in H3.
  apply bind_inr in H as ([] & w4 & H4 & H). apply modify_self_inr in H4.
  apply bind_inr in H as ([] & w5 & H5 & H). apply log_fit_inr in H5.
  apply bind_inr in H as ([] & w6 & H6 & H). apply modify_self_inr in H6.
  apply bind_inr in H as (s & w7 & H7 & H). apply get_self_inr in H7 as [Hs ->].
  apply bind_inr in H as ([] & w8 & H8 & H). apply modify_self_inr in H8.
  apply ret_inr in H as [_ Hw]. rewrite Hw, H8. simpl.
  rewrite H6; simpl. rewrite H5, H4; simpl. rewrite H3, H1; simpl.
  unfold le_fit_transform in Hle. injection Hle as <- _.
  repeat split; reflexivity.
Qed.

(** The bundle a successful [train] leaves in the object. *)
Lemma train_state (df : list row) w res w' :
  train df w = (inr res, w') ->
  is_trained w'.1 = true /\
  label_encoder w'.1 = Some (unique_sorted (map Type_ (clean_data df))) /\
  is_Some (scaler_regression w'.1) /\ is_Some (model_flowrate w'.1) /\
  is_Some (model_pressure w'.1) /\ is_Some (model_temperature w'.1).
Proof.
  unfold train. intros H.
  apply bind_inr in H as (r & w1 & H1 & H). apply train_regression_models_state in H1.
  apply bind_inr in H as (c & w2 & H2 & H). apply train_classification_model_state in H2.
  apply bind_inr in H as ([] & w3 & H3 & H). apply modify_self_inr in H3.
  apply ret_inr in H as [_ Hw]. rewrite Hw, H3. simpl.
  destruct H2 as (Hl & Hs & Hf & Hp & Ht). rewrite Hl, Hs, Hf, Hp, Ht.
  split; [reflexivity|]. split; [reflexivity|]. exact H1.
Qed.

End TrainedState.

Lemma index_of_In (s : string) (l : list string) i : index_of s l = Some i -> In s l.
Proof.
  revert i. induction l as [|t l IH]; simpl; intros i H; [discriminate|].
  destruct (String.eqb_spec s t) as [->|_]; [left; reflexivity|].
  destruct (index_of s l) as [j|] eqn:Ej; [|discriminate]. right. exact (IH j eq_refl).
Qed.

Lemma In_insert_uniq (x s : string) (l : list string) : In x (insert_uniq s l) -> x = s \/ In x l.
Proof.
  induction l as [|t l IH]; simpl.
  - intros [->|[]]. left. reflexivity.
  - destruct (String.eqb s t); [intros H; right; exact H|].
    destruct (String.ltb s t).
    + intros [->|H]; [left; reflexivity|right; exact H].
    + intros [->|H]; [right; left; reflexivity|]. destruct (IH H) as [->|H']; [left; reflexivity|].
      right; right; exact H'.
Qed.

Lemma In_unique_sorted (x : string) (l : list string) : In x (unique_sorted l) -> In x l.
Proof.
  unfold unique_sorted. induction l as [|t l IH]; simpl; [intros []|].
  intros H. destruct (In_insert_uniq _ _ _ H) as [->|H']; [left; reflexivity|right; exact (IH H')].
Qed.

Lemma index_of_unseen (s : string) (l : list string) :
  ~ In s l -> index_of s (unique_sorted l) = None.
Proof.
  intros Hn. destruct (index_of s (unique_sorted l)) as [i|] eqn:Ei; [|reflexivity].
  exfalso. apply Hn, In_unique_sorted. exact (index_of_In _ _ _ Ei).
Qed.

Section UnseenLabel.
Context `{E : Estimators} `{RNG : SplitRNG}.

(** Claim C3: for the bundle a successful [train] leaves, and a type label
    absent from the cleaned training data, [predict] does not raise: it
    encodes the label as 0 and returns the three regressors' predictions
    on the scaled code 0, each rounded to 2 decimals ([round2]), leaving
    the bundle unchanged. *)
Theorem C3_predict_unseen_label (df : list row) w res (s : ml_state) tr tr' (ty : string) :
  train df w = (inr res, (s, tr)) ->
  ~ In ty (map Type_ (clean_data df)) ->
  exists sc (fm fp ft : fitted_reg),
    scaler_regression s = Some sc /\ model_flowrate s = Some fm /\
    model_pressure s = Some fp /\ model_temperature s = Some ft /\
    predict ty (s, tr') =
      (inr {| p_equipment_type := ty;
              predicted_flowrate := round2 (reg_predict fm.2 (scaler_transform sc [inject_Z 0]));
              predicted_pressure := round2 (reg_predict fp.2 (scaler_transform sc [inject_Z 0]));
              predicted_temperature := round2 (reg_predict ft.2 (scaler_transform sc [inject_Z 0])) |},
       (s, tr')).
Proof.
  intros Ht Hn.
  destruct (train_state df w res (s, tr) Ht)
    as (Htr & Hle & [sc Hsc] & [fm Hf] & [fp Hp] & [ft Hti]); simpl in *.
  exists sc, fm, fp, ft. do 4 (split; [assumption|]).
  unfold predict, bind, get_self. simpl. rewrite Htr. simpl.
  unfold le_transform1. rewrite Hle, (index_of_unseen ty _ Hn). simpl.
  rewrite Hsc, Hf, Hp, Hti. destruct fm, fp, ft. reflexivity.
Qed.

End UnseenLabel.

Lemma C3_predict_unseen_label_witness :
  exists res s tr,
    @train demo_estimators demo_rng sample_pv (init_state, []) = (inr res, (s, tr)) /\
    ~ In "Reactor" (map Type_ (clean_data sample_pv)) /\
    exists sc (fm fp ft : @fitted_reg demo_estimators),
      scaler_regression s = Some sc /\ model_flowrate s = Some fm /\
      model_pressure s = Some fp /\ model_temperature s = Some ft /\
      predict "Reactor" (s, []) =
        (inr {| p_equipment_type := "Reactor";
                predicted_flowrate := round2 (reg_predict fm.2 (scaler_transform sc [inject_Z 0]));
                predicted_pressure := round2 (reg_predict fp.2 (scaler_transform sc [inject_Z 0]));
                predicted_temperature := round2 (reg_predict ft.2 (scaler_transform sc [inject_Z 0])) |},
         (s, [])).
Proof.
  destruct (@train demo_estimators demo_rng sample_pv (init_state, [])) as [[e|res] [s tr]] eqn:H.
  - vm_compute in H. discriminate.
  - assert (Hn : ~ In "Reactor" (map Type_ (clean_data sample_pv))).
    { vm_compute. intros H'. repeat destruct H' as [H'|H']; try discriminate H'. exact H'. }
    exists res, s, tr. split; [reflexivity|]. split; [exact Hn|].
    exact (C3_predict_unseen_label (E := demo_estimators) (RNG := demo_rng)
             sample_pv _ res s tr [] "Reactor" H Hn).
Defined.

(* ------------------------------------------------------------------ *)
(** ** C9, C10: [save_model] *)

Section Save.
Context `{E : Estimators}.

(** Claim C10: [save_model] on an object whose [is_trained] is false
    raises [ValueError("Model not trained yet")] and returns no new file
    system: nothing is written. *)
Theorem C10_save_untrained (filepath : path) (fs : filesystem) (s : ml_state) tr :
  is_trained s = false ->
  save_model filepath fs (s, tr) = (inl (ValueError "Model not trained yet"), (s, tr)).
Proof. intros H. unfold save_model, bind, get_self. simpl. rewrite H. reflexivity. Qed.

(** Claim C9 (amended): for a trained object, [save_model] writes the
    whole [model_data] dict ([blob_of], all ten keys) at [filepath] when
    the parent directory exists (and [filepath] is not a directory), and
    otherwise fails without writing: it creates no directory. *)
Theorem C9_save_model_parent_dir (filepath : path) (fs : filesystem) (s : ml_state) tr :
  is_trained s = true ->
  (dir_exists fs (parent filepath) = true -> dir_exists fs filepath = false ->
   save_model filepath fs (s, tr) =
     (inr {| fs_dirs := fs_dirs fs; fs_files := <[filepath := blob_of s]> (fs_files fs) |}, (s, tr))) /\
  (dir_exists fs (parent filepath) = false ->
   exists e, save_model filepath fs (s, tr) = (inl e, (s, tr))).
Proof.
  intros Ht. unfold save_model, bind, get_self, lift, write_file. simpl. rewrite Ht. simpl.
  split.
  - intros Hp Hd. rewrite Hd, Hp. reflexivity.
  - intros Hp. rewrite Hp. destruct (dir_exists fs filepath); [eexists; reflexivity|].
    destruct (bool_decide (is_Some (fs_files fs !! parent filepath))); eexists; reflexivity.
Qed.

End Save.

(** Claim C9, as stated: [save_model] creates missing parent directories.
    False: with no [media/ml_models] directory the write fails with
    [FileNotFoundError]. *)
Lemma C9_no_parent_dir_created :
  is_trained trained_demo_state = true /\
  @save_model demo_estimators sample_path empty_fs (trained_demo_state, []) =
    (inl (FileNotFoundError "No such file or directory"), (trained_demo_state, [])).
Proof. split; vm_compute; reflexivity. Qed.

Lemma C9_save_model_parent_dir_witness :
  @save_model demo_estimators sample_path media_fs (trained_demo_state, []) =
    (inr {| fs_dirs := fs_dirs media_fs;
            fs_files := <[sample_path := blob_of trained_demo_state]> (fs_files media_fs) |},
     (trained_demo_state, [])) /\
  exists e, @save_model demo_estimators sample_path empty_fs (trained_demo_state, []) =
              (inl e, (trained_demo_state, [])).
Proof.
  split.
  - apply (proj1 (C9_save_model_parent_dir sample_path media_fs trained_demo_state [] eq_refl));
      vm_compute; reflexivity.
  - apply (proj2 (C9_save_model_parent_dir sample_path empty_fs trained_demo_state [] eq_refl)).
    vm_compute. reflexivity.
Defined.

Lemma C10_save_untrained_witness :
  @save_model demo_estimators sample_path media_fs (init_state, []) =
    (inl (ValueError "Model not trained yet"), (init_state, [])).
Proof. apply C10_save_untrained. reflexivity. Defined.

(* ------------------------------------------------------------------ *)
(** ** C5: [load_model] *)

Section Load.
Context `{E : Estimators}.

Lemma path_exists_file (fs : filesystem) (p : path) b :
  fs_files fs !! p = Some b -> path_exists fs p = true.
Proof.
  intros H. unfold path_exists. rewrite H.
  rewrite (bool_decide_eq_true_2 (is_Some (Some b)) ltac:(eexists; reflexivity)).
  apply orb_true_r.
Qed.

(** Claim C5 (amended): [load_model] raises [FileNotFoundError] when the
    path does not exist.  On a bundle file it takes [classifier_model],
    both scalers and [training_history] with a default when absent (None,
    an unfitted [StandardScaler], [{}]), and restores every other field
    from its key; but [model_flowrate], [model_pressure],
    [model_temperature], [label_encoder], [feature_names] and [is_trained]
    are read with [model_data[key]]: when one of them is absent the load
    raises a [KeyError]. *)
Theorem C5_load_model_keys (filepath : path) (fs : filesystem) (s : ml_state) tr :
  (path_exists fs filepath = false ->
   load_model filepath fs (s, tr) = (inl (FileNotFoundError "Model file not found"), (s, tr))) /\
  (forall b, fs_files fs !! filepath = Some b ->
   forall v1 v2 v3 v7 v8 v10,
   k_model_flowrate b = Some v1 -> k_model_pressure b = Some v2 ->
   k_model_temperature b = Some v3 -> k_label_encoder b = Some v7 ->
   k_feature_names b = Some v8 -> k_is_trained b = Some v10 ->
   load_model filepath fs (s, tr) =
     (inr tt, ({| model_flowrate := v1; model_pressure := v2; model_temperature := v3;
                  classifier_model := from_option id None (k_classifier_model b);
                  label_encoder := v7;
                  scaler_regression := from_option id None (k_scaler_regression b);
                  scaler_classification := from_option id None (k_scaler_classification b);
                  feature_names := v8; is_trained := v10;
                  training_history := from_option id ∅ (k_training_history b) |}, tr))) /\
  (forall b, fs_files fs !! filepath = Some b ->
   k_model_flowrate b = None \/ k_model_pressure b = None \/ k_model_temperature b = None \/
   k_label_encoder b = None \/ k_feature_names b = None \/ k_is_trained b = None ->
   exists key s', load_model filepath fs (s, tr) = (inl (KeyError key), (s', tr))).
Proof.
  split; [|split].
  - intros H. unfold load_model. rewrite H. reflexivity.
  - intros b Hb v1 v2 v3 v7 v8 v10 H1 H2 H3 H7 H8 H10.
    unfold load_model. rewrite (path_exists_file fs filepath b Hb), Hb. simpl.
    unfold bind, required, modify_self, ret.
    rewrite H1, H2, H3, H7, H8, H10. reflexivity.
  - intros b Hb Hmiss.
    unfold load_model. rewrite (path_exists_file fs filepath b Hb), Hb. simpl.
    unfold bind, required, modify_self, ret, raise.
    destruct (k_model_flowrate b); [|do 2 eexists; reflexivity].
    destruct (k_model_pressure b); [|do 2 eexists; reflexivity].
    destruct (k_model_temperature b); [|do 2 eexists; reflexivity].
    destruct (k_label_encoder b); [|do 2 eexists; reflexivity].
    destruct (k_feature_names b); [|do 2 eexists; reflexivity].
    destruct (k_is_trained b); [|do 2 eexists; reflexivity].
    exfalso. repeat destruct Hmiss as [Hmiss|Hmiss]; discriminate.
Qed.

End Load.

(** Claim C5, as stated: a bundle file with absent fields still loads.
    False: [old_blob] has no [feature_names] key and [load_model] raises
    [KeyError('feature_names')]. *)
Lemma C5_missing_field_fails :
  fs_files old_fs !! sample_path = Some old_blob /\ k_feature_names old_blob = None /\
  (@load_model demo_estimators sample_path old_fs (init_state, [])).1 = inl (KeyError "feature_names").
Proof. split; [|split]; vm_compute; reflexivity. Qed.

Lemma C5_load_model_keys_witness :
  @load_model demo_estimators sample_path empty_fs (init_state, []) =
    (inl (FileNotFoundError "Model file not found"), (init_state, [])) /\
  @load_model demo_estimators sample_path old_fs_fn (init_state, []) =
    (inr tt, ({| model_flowrate := Some ((RandomForest, 120%Q) : @fitted_reg demo_estimators);
                 model_pressure := Some ((GradientBoosting, 5%Q) : @fitted_reg demo_estimators);
                 model_temperature := Some ((LinearRegression, 0%Q) : @fitted_reg demo_estimators);
                 classifier_model := None; label_encoder := Some ["Pump"; "Valve"];
                 scaler_regression := None; scaler_classification := None;
                 feature_names := ["Type_Encoded"]; is_trained := true;
                 training_history := ∅ |}, [])) /\
  exists key s', @load_model demo_estimators sample_path old_fs (init_state, []) =
                   (inl (KeyError key), (s', [])).
Proof.
  destruct (C5_load_model_keys (E := demo_estimators) sample_path empty_fs init_state []) as [Ha _].
  destruct (C5_load_model_keys (E := demo_estimators) sample_path old_fs_fn init_state []) as [_ [Hb _]].
  destruct (C5_load_model_keys (E := demo_estimators) sample_path old_fs init_state []) as [_ [_ Hc]].
  split; [apply Ha; vm_compute; reflexivity|]. split.
  - apply (Hb old_blob_fn); vm_compute; reflexivity.
  - apply (Hc old_blob); [vm_compute; reflexivity|]. right; right; right; right; left.
    reflexivity.
Defined.

(* ------------------------------------------------------------------ *)
(** ** C6: the stratification fallback of [train_classification_model] *)

Lemma In_insert_uniq_self (s : string) (l : list string) : In s (insert_uniq s l).
Proof.
  induction l as [|t l IH]; simpl; [left; reflexivity|].
  destruct (String.eqb_spec s t) as [->|_]; [left; reflexivity|].
  destruct (String.ltb s t); [left; reflexivity|right; exact IH].
Qed.

Lemma In_insert_uniq_keep (x s : string) (l : list string) : In x l -> In x (insert_uniq s l).
Proof.
  induction l as [|t l IH]; simpl; [intros []|].
  destruct (String.eqb s t); [intros H; exact H|].
  destruct (String.ltb s t); [intros H; right; exact H|].
  intros [->|H]; [left; reflexivity|right; exact (IH H)].
Qed.

Lemma In_unique_sorted_2 (x : string) (l : list string) : In x l -> In x (unique_sorted l).
Proof.
  unfold unique_sorted. induction l as [|t l IH]; simpl; [intros []|].
  intros [->|H]; [apply In_insert_uniq_self|apply In_insert_uniq_keep, IH, H].
Qed.

Lemma index_of_complete (s : string) (l : list string) : In s l -> exists i, index_of s l = Some i.
Proof.
  induction l as [|t l IH]; simpl; [intros []|].
  destruct (String.eqb_spec s t) as [_|Hne]; [intros _; eexists; reflexivity|].
  intros [->|H]; [congruence|]. destruct (IH H) as [i ->]. eexists. reflexivity.
Qed.

Lemma index_of_nth (s : string) (l : list string) i : index_of s l = Some i -> nth_error l i = Some s.
Proof.
  revert i. induction l as [|t l IH]; simpl; intros i H; [discriminate|].
  destruct (String.eqb_spec s t) as [->|_]; [injection H as <-; reflexivity|].
  destruct (index_of s l) as [j|] eqn:Ej; [|discriminate]. injection H as <-. exact (IH j eq_refl).
Qed.

Lemma le_fit_transform_codes (ys : list string) :
  (le_fit_transform ys).2 = map (encode (unique_sorted ys)) ys.
Proof. reflexivity. Qed.

Lemma encode_inj (cls : list string) (s t : string) :
  In s cls -> In t cls -> encode cls s = encode cls t -> s = t.
Proof.
  intros Hs Ht. unfold encode.
  destruct (index_of_complete s cls Hs) as [i Ei]. destruct (index_of_complete t cls Ht) as [j Ej].
  rewrite Ei, Ej. intros H. apply Nat2Z.inj in H. subst j.
  apply index_of_nth in Ei, Ej. congruence.
Qed.

Lemma count_Z_map_inj (f : string -> Z) (l : list string) (t : string) :
  (forall s, In s l -> f s = f t -> s = t) -> count_Z (f t) (map f l) = count_occ String.string_dec l t.
Proof.
  induction l as [|x l IH]; simpl; intros H; [reflexivity|].
  rewrite IH by (intros s Hs; apply H; right; exact Hs).
  destruct (Z.eqb_spec (f x) (f t)) as [E1|E1]; destruct (String.string_dec x t) as [E2|E2].
  - reflexivity.
  - exfalso. exact (E2 (H x (or_introl eq_refl) E1)).
  - subst. contradiction.
  - reflexivity.
Qed.

Lemma count_Z_map_ge (f : string -> Z) (l : list string) (t : string) :
  (count_occ String.string_dec l t <= count_Z (f t) (map f l))%nat.
Proof.
  induction l as [|x l IH]; simpl; [lia|].
  destruct (String.string_dec x t) as [->|_]; [rewrite Z.eqb_refl; lia|].
  destruct (Z.eqb (f x) (f t)); lia.
Qed.

Lemma In_insert_uniq_Z (x z : Z) (l : list Z) : In x (insert_uniq_Z z l) <-> z = x \/ In x l.
Proof.
  induction l as [|t l IH]; simpl; [tauto|].
  destruct (Z.eqb_spec z t) as [->|_].
  - simpl. tauto.
  - destruct (Z.ltb z t); simpl; [tauto|]. rewrite IH. tauto.
Qed.

Lemma In_unique_Z (x : Z) (l : list Z) : In x (unique_Z l) <-> In x l.
Proof.
  unfold unique_Z. induction l as [|t l IH]; simpl; [tauto|].
  rewrite In_insert_uniq_Z, IH. tauto.
Qed.

Lemma can_stratify_false (y : list Z) (c : Z) :
  In c y -> (count_Z c y < 2)%nat -> can_stratify y = false.
Proof.
  intros Hin Hc. unfold can_stratify, class_counts.
  destruct (forallb _ _) eqn:F; [|reflexivity]. exfalso.
  rewrite forallb_forall in F.
  specialize (F (count_Z c y)). rewrite in_map_iff in F.
  assert (H : Nat.leb 2 (count_Z c y) = true).
  { apply F. exists c. split; [reflexivity|]. apply (proj2 (In_unique_Z c y)), Hin. }
  apply Nat.leb_le in H. lia.
Qed.

Lemma can_stratify_true (y : list Z) :
  (forall c, In c y -> (2 <= count_Z c y)%nat) -> can_stratify y = true.
Proof.
  intros H. unfold can_stratify, class_counts. apply forallb_forall.
  intros n Hn. apply in_map_iff in Hn as (c & <- & Hc). apply (proj1 (In_unique_Z c y)) in Hc.
  apply Nat.leb_le. exact (H c Hc).
Qed.

Lemma shuffle_split_ok `{RNG : SplitRNG} (n : nat) :
  (2 <= n)%nat -> exists train test, shuffle_split n = inr (train, test).
Proof.
  intros Hn. unfold shuffle_split, validate_shuffle_split.
  destruct (Nat.eqb_spec (n - (n + 4) / 5) 0) as [H0|_].
  - exfalso. assert (((n + 4) / 5 < n)%nat); [|lia].
    apply Nat.Div0.div_lt_upper_bound. lia.
  - do 2 eexists. reflexivity.
Qed.

Section Stratification.
Context `{E : Estimators} `{RNG : SplitRNG}.

(** The features [X] of [train_classification_model]. *)
Lemma train_classification_model_ok (df : list row) w sp :
  classification_split
    (map (fun r => [from_option id 0%Q (Flowrate r); from_option id 0%Q (Pressure r);
                    from_option id 0%Q (Temperature r)]) (clean_data df))
    (le_fit_transform (map Type_ (clean_data df))).2 = inr sp ->
  exists c w', train_classification_model df w = (inr c, w') /\ is_Some (classifier_model w'.1).
Proof.
  intros H. unfold train_classification_model. cbv zeta.
  destruct (le_fit_transform (map Type_ (clean_data df))) as [cls y] eqn:Hle. simpl in H.
  unfold bind, modify_self, lift, log_fit, get_self, ret. rewrite H.
  destruct sp as [[[X_train X_test] y_train] y_test].
  do 2 eexists. split; [reflexivity|]. simpl. eexists. reflexivity.
Qed.

(** Claim C6 (amended): stratification is decided on the cleaned data.
    When at least 2 rows remain after [clean_data] and some type label has
    exactly one row among them, [train_classification_model] uses the
    non-stratified split and returns its metrics with a fitted classifier;
    when every label remaining has at least 2 rows, the split is
    stratified by the encoded labels. *)
Theorem C6_stratification_fallback (df : list row) w :
  let data := clean_data df in
  let labels := map Type_ data in
  let X := map (fun r => [from_option id 0%Q (Flowrate r); from_option id 0%Q (Pressure r);
                          from_option id 0%Q (Temperature r)]) data in
  let y := (le_fit_transform labels).2 in
  ((2 <= length data)%nat -> (exists t, count_occ String.string_dec labels t = 1%nat) ->
   classification_split X y = train_test_split X y None /\
   exists c w', train_classification_model df w = (inr c, w') /\ is_Some (classifier_model w'.1)) /\
  ((forall t, In t labels -> (2 <= count_occ String.string_dec labels t)%nat) ->
   classification_split X y = train_test_split X y (Some y)).
Proof.
  intros data labels X y.
  assert (Hy : y = map (encode (unique_sorted labels)) labels) by reflexivity.
  split.
  - intros Hn [t Ht].
    assert (Hin : In t labels) by (apply (count_occ_In String.string_dec); lia).
    assert (Hcs : can_stratify y = false).
    { apply (can_stratify_false y (encode (unique_sorted labels) t)).
      - rewrite Hy. apply in_map. exact Hin.
      - rewrite Hy, count_Z_map_inj; [lia|]. intros s Hs Heq.
        apply (encode_inj (unique_sorted labels)); [apply In_unique_sorted_2; exact Hs
                                                   |apply In_unique_sorted_2; exact Hin|exact Heq]. }
    assert (Hsplit : classification_split X y = train_test_split X y None)
      by (unfold classification_split; rewrite Hcs; reflexivity).
    split; [exact Hsplit|].
    destruct (shuffle_split_ok (length X)) as (tr & te & Hs);
      [unfold X; rewrite length_map; exact Hn|].
    apply (train_classification_model_ok df w
             (take_indices X tr, take_indices X te, take_indices y tr, take_indices y te)).
    transitivity (train_test_split X y None); [exact Hsplit|].
    unfold train_test_split. rewrite Hs. reflexivity.
  - intros Hall. unfold classification_split. rewrite can_stratify_true; [reflexivity|].
    intros c Hc. rewrite Hy in Hc |- *. apply in_map_iff in Hc as (t & <- & Ht).
    pose proof (count_Z_map_ge (encode (unique_sorted labels)) labels t).
    specialize (Hall t Ht). lia.
Qed.

End Stratification.

Lemma C6_stratification_fallback_witness :
  (let data := clean_data sample_small3 in
   let labels := map Type_ data in
   let X := map (fun r => [from_option id 0%Q (Flowrate r); from_option id 0%Q (Pressure r);
                           from_option id 0%Q (Temperature r)]) data in
   let y := (le_fit_transform labels).2 in
   classification_split (RNG := demo_rng) X y = train_test_split (RNG := demo_rng) X y None /\
   exists c w', train_classification_model (E := demo_estimators) (RNG := demo_rng)
                  sample_small3 (init_state, []) = (inr c, w') /\ is_Some (classifier_model w'.1)) /\
  (let data := clean_data sample_pv in
   let labels := map Type_ data in
   let X := map (fun r => [from_option id 0%Q (Flowrate r); from_option id 0%Q (Pressure r);
                           from_option id 0%Q (Temperature r)]) data in
   let y := (le_fit_transform labels).2 in
   classification_split (RNG := demo_rng) X y = train_test_split (RNG := demo_rng) X y (Some y)).
Proof.
  split.
  - apply (proj1 (C6_stratification_fallback (E := demo_estimators) (RNG := demo_rng)
                    sample_small3 (init_state, []))).
    + vm_compute. lia.
    + exists "Pump". vm_compute. reflexivity.
  - apply (proj2 (C6_stratification_fallback (E := demo_estimators) (RNG := demo_rng)
                    sample_pv (init_state, []))).
    intros t Ht. vm_compute in Ht.
    repeat destruct Ht as [<-|Ht]; try destruct Ht; vm_compute; lia.
Defined.

(** Claim C6, as stated: a frame with a one-row class always trains the
    classifier.  False: [sample_const3] has three one-row classes, its
    constant pressure column empties it in [clean_data], and the split
    raises [ValueError]. *)
Lemma C6_singleton_class_can_fail :
  count_occ String.string_dec (map Type_ sample_const3) "Pump" = 1%nat /\
  (train_classification_model (E := demo_estimators) (RNG := demo_rng) sample_const3 (init_state, [])).1 =
    inl (ValueError "the resulting train set will be empty. Adjust any of the aforementioned parameters.").
Proof. split; vm_compute; reflexivity. Qed.

(** With 3 cleaned rows the test split has one row, every R² is NaN, no
    candidate is retained, and a fresh object raises [AttributeError]. *)
Lemma train_regression_models_three_rows :
  clean_data sample_small3 = fill_missing sample_small3 /\
  exists s', train_regression_models (E := demo_estimators) (RNG := demo_rng)
               sample_small3 (init_state, []) =
             (inl (AttributeError "'NoneType' object has no attribute 'predict'"), s').
Proof. split; [vm_compute; reflexivity|]. eexists. vm_compute. reflexivity. Qed.
